(** * Qisclick: the command runner and the provisioning sequence

    A shallow embedding of [Qisclick.py].  The script is a straight line of
    calls to the host (file system, search path, child processes, console);
    it is modelled in a small monad that threads the file system, collects
    the visible effects as a trace and carries Python's exceptions,
    [SystemExit] included. *)

From Stdlib Require Import ZArith Ascii String List Bool Lia DecimalString.
From stdpp Require Import base decidable gmap strings list.
Import ListNotations.
Local Open Scope string_scope.
Local Open Scope list_scope.
Local Open Scope Z_scope.
#[local] Arguments cons {A}%_type_scope & a l.

(** ** Python strings *)

Module PyStr.

Definition chr (n : nat) : string := String (ascii_of_nat n) EmptyString.

(** The line feed, the double quote and the backslash of the script's
    literals. *)
Definition nl : string := chr 10.
Definition dq : string := chr 34.
Definition bs : string := chr 92.

(** [s * n] *)
Fixpoint repeat (s : string) (n : nat) : string :=
  match n with
  | O => EmptyString
  | S k => s +:+ repeat s k
  end.

(** [s.center(width)]: CPython puts the odd blank on the left exactly when
    both the padding and the width are odd. *)
Definition center (s : string) (width : nat) : string :=
  let len := String.length s in
  if (width <=? len)%nat then s
  else
    let marg := (width - len)%nat in
    let left := (marg / 2 + (if Nat.odd marg && Nat.odd width then 1 else 0))%nat in
    repeat " " left +:+ s +:+ repeat " " (marg - left).

(** [sep.join(l)] *)
Definition join (sep : string) (l : list string) : string := String.concat sep l.

(** [str(n)] for a natural number. *)
Definition of_nat (n : nat) : string := NilEmpty.string_of_uint (Nat.to_uint n).

(** Truth value of an optional text: [None] and the empty text are false. *)
Definition truthy (o : option string) : bool :=
  match o with
  | Some (String _ _) => true
  | _ => false
  end.

Definition text (o : option string) : string :=
  match o with
  | Some s => s
  | None => EmptyString
  end.

End PyStr.

(** ** Commands, exceptions, children *)

(** An element of a command list: [subprocess.run] takes text, bytes and
    path objects (here with the name of their class). *)
Inductive arg :=
| Str (s : string)
| Bytes (b : string)
| PathLike (class_name path : string).
Coercion Str : string >-> arg.

(** A command is a list of arguments or one string (the docstring's
    "list or str"). *)
Inductive command :=
| CmdList (argv : list arg)
| CmdStr (line : string).

(** The instances of [Exception] the script tells apart.  Every exception
    carries its [str()]; [OSError] stands for the instances of [OSError]
    other than [FileNotFoundError] ([PermissionError], ...), and
    [OtherError] for the instances of [Exception] outside [OSError] and
    [CalledProcessError].  What is raised outside [Exception] is
    [SystemExit], below; an interrupt from the keyboard is not modelled. *)
Inductive exn :=
| CalledProcessError (returncode : Z) (cmd : command)
                     (stdout stderr : option string) (msg : string)
| FileNotFoundError (msg : string)
| OSError (msg : string)
| OtherError (msg : string).

Definition str_exn (e : exn) : string :=
  match e with
  | CalledProcessError _ _ _ _ msg => msg
  | FileNotFoundError msg => msg
  | OSError msg => msg
  | OtherError msg => msg
  end.

(** [isinstance(e, OSError)] *)
Definition is_OSError (e : exn) : bool :=
  match e with
  | FileNotFoundError _ | OSError _ => true
  | _ => false
  end.

(** What is in flight when a computation does not return: [SystemExit]
    (raised by [sys.exit], not an [Exception]) or an [Exception]. *)
Inductive raised :=
| SystemExit (code : Z)
| Exc (e : exn).

Inductive result (A : Type) :=
| Normal (a : A)
| Raise (r : raised).
Arguments Normal {A} a.
Arguments Raise {A} r.

(** The items of [' '.join(argv)]: [str.join] raises [TypeError] at the
    first item that is not text. *)
Fixpoint str_items (i : nat) (argv : list arg) : result (list string) :=
  match argv with
  | [] => Normal []
  | Str s :: rest =>
      match str_items (S i) rest with
      | Normal items => Normal (s :: items)
      | Raise r => Raise r
      end
  | Bytes _ :: _ =>
      Raise (Exc (OtherError ("sequence item " +:+ PyStr.of_nat i
                              +:+ ": expected str instance, bytes found")))
  | PathLike class_name _ :: _ =>
      Raise (Exc (OtherError ("sequence item " +:+ PyStr.of_nat i
                              +:+ ": expected str instance, " +:+ class_name +:+ " found")))
  end.

(** [' '.join(command) if isinstance(command, list) else command] *)
Definition command_text (c : command) : result string :=
  match c with
  | CmdList argv =>
      match str_items 0 argv with
      | Normal items => Normal (PyStr.join " " items)
      | Raise r => Raise r
      end
  | CmdStr line => Normal line
  end.

(** The command can be printed: it is a string or a list of text only. *)
Definition printable (c : command) : bool :=
  match command_text c with
  | Normal _ => true
  | Raise _ => false
  end.

(** Where a standard stream of a child goes: [None] (inherited), a pipe, or
    one of the parent's stream objects passed explicitly. *)
Inductive stream := Inherit | PIPE | ParentStream.

(** The keyword arguments of one [subprocess.run] call. *)
Record run_args := RunArgs {
  ra_args : command;
  ra_cwd : option string;
  ra_shell : bool;
  ra_check : bool;
  ra_stdin : stream;
  ra_stdout : stream;
  ra_stderr : stream;
  ra_text : bool
}.

(** What the host does with a child: it starts and runs to completion with
    an exit code, having written some bytes on each stream, or the
    invocation itself raises. *)
Inductive proc_outcome :=
| Exited (returncode : Z) (out err : string)
| LaunchError (e : exn).

(** What reading a piped stream in text mode gives: the text (decoded, line
    ends translated), or the error of the codec. *)
Inductive decoded :=
| Decoded (text : string)
| DecodeError (e : exn).

Record CompletedProcess := {
  cp_args : command;
  cp_returncode : Z;
  cp_stdout : option string;
  cp_stderr : option string
}.

(** The visible effects of a run, in order. *)
Inductive event :=
| Print (line : string)
| Rmtree (path : string)
| Spawn (a : run_args).

(** The host of a run: the interpreter, the platform, the path functions of
    [os.path] for that platform, [str.strip], the codec of text mode, which
    paths lie below a directory, and the answers of the file system, the
    search path and the children.  A child is answered by the arguments of
    its invocation; all invocations of one run of [main] differ in them. *)
Record host := {
  sys_executable : string;
  script_dir : string;
  platform_system : string;
  os_path_join : string -> list string -> string;
  os_path_basename : string -> string;
  os_path_dirname : string -> string;
  str_strip : string -> string;
  text_decode : string -> decoded;
  fs_below : string -> string -> bool;
  shutil_which : string -> option string;
  rmtree_error : string -> option exn;
  os_spawn : run_args -> proc_outcome;
  cpe_str : command -> Z -> string
}.

(** ** The monad *)

(** The file system is the set of paths that exist.  The script reads it
    once ([os.path.exists]) and changes it once ([shutil.rmtree]), both
    before its first child.  What children write is not tracked: the
    environment directory belongs to this run alone, and the one child
    between the removal and the creation is [pip cache purge]. *)
Definition M (A : Type) : Type :=
  gset string -> list event * gset string * result A.

Definition ret {A} (a : A) : M A := fun w => ([], w, Normal a).

Definition bind {A B} (m : M A) (k : A -> M B) : M B :=
  fun w =>
    match m w with
    | (t, w', Normal a) =>
        match k a w' with
        | (t', w'', r) => (t ++ t', w'', r)
        end
    | (t, w', Raise r) => (t, w', Raise r)
    end.

Definition raise {A} (r : raised) : M A := fun w => ([], w, Raise r).

(** A value or an exception, without effect. *)
Definition lift {A} (x : result A) : M A := fun w => ([], w, x).

Definition emit (e : event) : M unit := fun w => ([e], w, Normal tt).

(** [try: body; except ...: ...]: [handlers e] is the first clause that
    matches [e], or [None] when none does and [e] goes on.  No clause of the
    script names a class that [SystemExit] is an instance of. *)
Definition try_except {A} (body : M A) (handlers : exn -> option (M A)) : M A :=
  fun w =>
    match body w with
    | (t, w', Raise (Exc e)) =>
        match handlers e with
        | Some h =>
            match h w' with
            | (t', w'', r) => (t ++ t', w'', r)
            end
        | None => (t, w', Raise (Exc e))
        end
    | other => other
    end.

Declare Scope py_scope.
Delimit Scope py_scope with py.
Notation "x <- m ;; k" := (bind m (fun x => k))
  (at level 100, m at next level, right associativity) : py_scope.
Notation "m ;; k" := (bind m (fun _ => k))
  (at level 100, right associativity) : py_scope.
Local Open Scope py_scope.

Definition print (line : string) : M unit := emit (Print line).

(** [sys.exit(code)] *)
Definition sys_exit {A} (code : Z) : M A := raise (SystemExit code).

(** [if c: body] *)
Definition when (c : bool) (body : M unit) : M unit :=
  if c then body else ret tt.

(** The exit status of the process: 0 when [main] returns, the code of
    [SystemExit], 1 when an exception reaches the top level. *)
Definition exit_code {A} (r : result A) : Z :=
  match r with
  | Normal _ => 0
  | Raise (SystemExit code) => code
  | Raise (Exc _) => 1
  end.

Section Script.

Variable h : host.

(** [venv_dir = os.path.join(script_dir, 'qisclick_env')] *)
Definition venv_dir : string := os_path_join h (script_dir h) ["qisclick_env"].

(** [os.path.exists(path)] *)
Definition os_path_exists (path : string) : M bool :=
  fun w => ([], w, Normal (bool_decide (path ∈ w))).

(** [path] itself or a path below it on this host. *)
Definition under (path q : string) : bool :=
  String.eqb path q || fs_below h path q.

(** [shutil.rmtree(path)]: the host either raises, or the tree is gone. *)
Definition shutil_rmtree (path : string) : M unit :=
  fun w =>
    match rmtree_error h path with
    | Some e => ([Rmtree path], w, Raise (Exc e))
    | None => ([Rmtree path], filter (fun q => under path q = false) w, Normal tt)
    end.

(** What [communicate] hands back for a stream: nothing when it is not
    piped, the decoded text in text mode (or the error of the codec), the
    bytes otherwise. *)
Definition captured (s : stream) (text : bool) (written : string) : result (option string) :=
  match s with
  | PIPE =>
      if text then
        match text_decode h written with
        | Decoded t => Normal (Some t)
        | DecodeError e => Raise (Exc e)
        end
      else Normal (Some written)
  | _ => Normal None
  end.

(** [subprocess.run(...)]: the streams are read (standard output first)
    once the child has ended; then, with [check], a non-zero exit code
    raises [CalledProcessError]. *)
Definition subprocess_run (a : run_args) : M CompletedProcess :=
  fun w =>
    match os_spawn h a with
    | Exited rc out err =>
        match captured (ra_stdout a) (ra_text a) out with
        | Raise r => ([Spawn a], w, Raise r)
        | Normal so =>
            match captured (ra_stderr a) (ra_text a) err with
            | Raise r => ([Spawn a], w, Raise r)
            | Normal se =>
                if ra_check a && negb (rc =? 0) then
                  ([Spawn a], w,
                   Raise (Exc (CalledProcessError rc (ra_args a) so se
                                 (cpe_str h (ra_args a) rc))))
                else
                  ([Spawn a], w,
                   Normal {| cp_args := ra_args a; cp_returncode := rc;
                             cp_stdout := so; cp_stderr := se |})
            end
        end
    | LaunchError e => ([Spawn a], w, Raise (Exc e))
    end.

(** The [subprocess.run] call of [run_command]:
    [stdout=subprocess.PIPE if capture_output else None], the same for
    [stderr], [text=True]. *)
Definition run_command_args (command : command) (cwd : option string)
    (shell check capture_output : bool) : run_args :=
  {| ra_args := command; ra_cwd := cwd; ra_shell := shell; ra_check := check;
     ra_stdin := Inherit;
     ra_stdout := if capture_output then PIPE else Inherit;
     ra_stderr := if capture_output then PIPE else Inherit;
     ra_text := true |}.

(** [run_command(command, cwd, shell, check, capture_output)] *)
Definition run_command (command : command) (cwd : option string)
    (shell check capture_output : bool) : M bool :=
  try_except
    (result <- subprocess_run (run_command_args command cwd shell check capture_output) ;;
     when capture_output
       (when (PyStr.truthy (cp_stdout result))
          (print (str_strip h (PyStr.text (cp_stdout result)))) ;;
        when (PyStr.truthy (cp_stderr result))
          (print (str_strip h (PyStr.text (cp_stderr result))))) ;;
     ret true)
    (fun e =>
       match e with
       | CalledProcessError _ _ e_stdout e_stderr _ =>
           Some (line <- lift (command_text command) ;;
                 print ("Error executing command: " +:+ line) ;;
                 when (PyStr.truthy e_stdout)
                   (print ("Stdout: " +:+ str_strip h (PyStr.text e_stdout))) ;;
                 when (PyStr.truthy e_stderr)
                   (print ("Stderr: " +:+ str_strip h (PyStr.text e_stderr))) ;;
                 print ("Error details: " +:+ str_exn e) ;;
                 ret false)
       | FileNotFoundError _ =>
           Some (print "Command not found. Please ensure necessary executables (like python, pip) are in your PATH." ;;
                 ret false)
       | _ =>
           Some (print ("An unexpected error occurred: " +:+ str_exn e) ;;
                 ret false)
       end).

(** The verification program handed to the environment's interpreter; the
    literal starts and ends with a line feed. *)
Definition qiskit_test_script : string :=
  let dq := PyStr.dq in
  PyStr.join PyStr.nl
    [EmptyString;
     "from qiskit import QuantumCircuit, transpile";
     "from qiskit_aer import AerSimulator";
     "import sys";
     EmptyString;
     "try:";
     "    # Create a quantum circuit with 2 qubits and 2 classical bits";
     "    qc = QuantumCircuit(2, 2)";
     EmptyString;
     "    # Add a Hadamard gate to qubit 0, putting it in superposition";
     "    qc.h(0)";
     EmptyString;
     "    # Add a CNOT gate with qubit 0 as control and qubit 1 as target";
     "    qc.cx(0, 1)";
     EmptyString;
     "    # Measure both qubits and map them to classical bits";
     "    qc.measure([0, 1], [0, 1])";
     EmptyString;
     "    # Use the AerSimulator";
     "    simulator = AerSimulator()";
     EmptyString;
     "    # Transpile the circuit for the simulator";
     "    compiled_circuit = transpile(qc, simulator)";
     EmptyString;
     "    # Run the circuit on the simulator and get results";
     "    job = simulator.run(compiled_circuit, shots=1024)";
     "    result = job.result()";
     "    counts = result.get_counts(qc)";
     EmptyString;
     "    print(" +:+ dq +:+ "\nQiskit test successful! Results:" +:+ dq +:+ ")";
     "    print(f" +:+ dq +:+ "Measurement counts: {counts}" +:+ dq +:+ ")";
     "    print(" +:+ dq +:+ "Your Qiskit installation is working correctly." +:+ dq +:+ ")";
     EmptyString;
     "except ImportError as e:";
     "    print(f" +:+ dq +:+ "Qiskit test failed: Missing module. {e}" +:+ dq +:+ ")";
     "    print(" +:+ dq +:+ "Please ensure all Qiskit components were installed correctly." +:+ dq +:+ ")";
     "    sys.exit(1)";
     "except Exception as e:";
     "    print(f" +:+ dq +:+ "An unexpected error occurred during Qiskit test: {e}" +:+ dq +:+ ")";
     "    sys.exit(1)";
     EmptyString].

(** [packages_to_install] *)
Definition packages_to_install : list string :=
  ["qiskit"; "qiskit-aer"; "qiskit-ibm-runtime"; "qiskit-terra"].

Definition is_windows : bool := String.eqb (platform_system h) "Windows".

(** Branding display *)
Definition branding : M unit :=
  print (PyStr.nl +:+ PyStr.repeat "=" 50) ;;
  print (PyStr.center "        Qisclick" 50) ;;
  print (PyStr.center "        by incredibit" 50) ;;
  print (PyStr.repeat "=" 50 +:+ PyStr.nl).

(** Step 1: remove any existing virtual environment at the target path *)
Definition step1_teardown : M unit :=
  present <- os_path_exists venv_dir ;;
  if present then
    print ("Removing existing virtual environment at " +:+ venv_dir +:+ "...") ;;
    try_except
      (shutil_rmtree venv_dir ;;
       print "Old virtual environment removed successfully.")
      (fun e =>
         if is_OSError e then
           Some (print ("Error removing old virtual environment: " +:+ str_exn e) ;;
                 sys_exit 1)
         else None)
  else
    print ("No existing virtual environment found at " +:+ venv_dir +:+ ", skipping removal.").

(** Step 2: clear the pip cache *)
Definition step2_purge : M unit :=
  print "Attempting to clear pip cache for Qiskit residues..." ;;
  match shutil_which h "pip" with
  | Some system_pip =>
      ok <- run_command (CmdList [system_pip; "cache"; "purge"]) None false false false ;;
      if negb ok then
        print "Warning: Could not purge pip cache. This might be normal if no cache exists."
      else
        print "Pip cache purged successfully (or no cache to purge)."
  | None =>
      print "Warning: 'pip' command not found in system PATH. Cannot purge cache."
  end.

(** Step 3: create a new virtual environment *)
Definition create_command : command :=
  CmdList [sys_executable h; "-m"; "venv"; venv_dir].

Definition step3_create : M unit :=
  print ("Creating a new virtual environment named '" +:+ os_path_basename h venv_dir
         +:+ "' at '" +:+ os_path_dirname h venv_dir +:+ "'...") ;;
  ok <- run_command create_command None false true true ;;
  when (negb ok)
    (print "Failed to create virtual environment. Exiting." ;;
     sys_exit 1) ;;
  print "New virtual environment created successfully.".

(** The paths to pip and python within the new virtual environment *)
Definition pip_path : string :=
  if is_windows then os_path_join h venv_dir ["Scripts"; "pip.exe"]
  else os_path_join h venv_dir ["bin"; "pip"].

Definition python_path : string :=
  if is_windows then os_path_join h venv_dir ["Scripts"; "python.exe"]
  else os_path_join h venv_dir ["bin"; "python"].

(** Step 4: upgrade pip in the new virtual environment *)
Definition upgrade_command : command :=
  CmdList [pip_path; "install"; "--upgrade"; "pip"].

Definition step4_upgrade : M unit :=
  print "Upgrading pip in the new virtual environment..." ;;
  ok <- run_command upgrade_command None false true true ;;
  when (negb ok)
    (print "Failed to upgrade pip. Exiting." ;;
     sys_exit 1) ;;
  print "Pip upgraded successfully.".

(** Step 5: the loop [for package in packages_to_install] *)
Definition install_command (package : string) : command :=
  CmdList [pip_path; "install"; package].

Fixpoint install_packages (packages : list string) : M unit :=
  match packages with
  | [] => ret tt
  | package :: rest =>
      print ("Installing " +:+ package +:+ "...") ;;
      ok <- run_command (install_command package) None false true true ;;
      when (negb ok)
        (print ("Error installing " +:+ package
                +:+ ". Please check your internet connection. Exiting.") ;;
         sys_exit 1) ;;
      print (package +:+ " installed.") ;;
      install_packages rest
  end.

Definition step5_install : M unit :=
  print "Installing Qiskit and its components (latest compatible versions)..." ;;
  install_packages packages_to_install ;;
  print (PyStr.nl +:+ "All specified Qiskit components installed successfully!").

(** Step 6: run the verification program *)
Definition test_command : command :=
  CmdList [python_path; "-c"; qiskit_test_script].

Definition step6_verify : M unit :=
  print (PyStr.nl +:+ "Running a simple Qiskit test to verify installation...") ;;
  ok <- run_command test_command None false true false ;;
  if negb ok then
    print "Qiskit test failed. Please review the output above for errors." ;;
    sys_exit 1
  else
    print (PyStr.nl +:+ "Qiskit test completed successfully!").

(** Step 7: open an interactive interpreter; its [CompletedProcess] is
    dropped. *)
Definition interactive_args : run_args :=
  {| ra_args := CmdStr python_path; ra_cwd := None; ra_shell := false;
     ra_check := false; ra_stdin := ParentStream; ra_stdout := ParentStream;
     ra_stderr := ParentStream; ra_text := false |}.

Definition step7_interactive : M unit :=
  print (PyStr.nl +:+ "Installation and test complete! Your 'qisclick' virtual environment is ready.") ;;
  print "Launching an interactive Python interpreter within 'qisclick' environment..." ;;
  print "Type 'exit()' and press Enter to quit the interpreter." ;;
  try_except
    (subprocess_run interactive_args ;; ret tt)
    (fun e =>
       Some (print ("Error launching interactive Python interpreter: " +:+ str_exn e) ;;
             sys_exit 1)).

(** The reactivation guidance that ends the run *)
Definition guidance_line : string :=
  if is_windows then os_path_join h venv_dir ["Scripts"; "activate.bat"]
  else "source " +:+ os_path_join h venv_dir ["bin"; "activate"].

Definition step8_guidance : M unit :=
  print (PyStr.nl +:+ "Exited 'qisclick' interactive Python interpreter.") ;;
  print "You can activate it again anytime by running:" ;;
  print guidance_line.

(** [main()] *)
Definition main : M unit :=
  branding ;;
  step1_teardown ;;
  step2_purge ;;
  step3_create ;;
  step4_upgrade ;;
  step5_install ;;
  step6_verify ;;
  step7_interactive ;;
  step8_guidance.

End Script.

(** ** Reading a run *)

Definition trace_of {A} (x : list event * gset string * result A) : list event := x.1.1.
Definition fs_of {A} (x : list event * gset string * result A) : gset string := x.1.2.
Definition result_of {A} (x : list event * gset string * result A) : result A := x.2.

(** [m], started on the file system [w], leaves the trace [t], the file
    system [w'] and the result [r]. *)
Definition runs {A} (m : M A) (w : gset string) (t : list event)
    (w' : gset string) (r : result A) : Prop :=
  m w = (t, w', r).

(** A computation that neither reads nor changes the file system. *)
Definition blind {A} (m : M A) : Prop :=
  exists t r, forall w, m w = (t, w, r).

(** [m], started on [w], gets to [m'] on [w1] having left the trace [t0]:
    the rest of its run is the run of [m']. *)
Definition reaches {A} (m : M A) (w : gset string) (t0 : list event)
    (w1 : gset string) (m' : M A) : Prop :=
  forall t w' r, runs m' w1 t w' r -> runs m w (t0 ++ t) w' r.

(** The run [x] with the trace [t0] before it. *)
Definition prepend {A} (t0 : list event) (x : list event * gset string * result A)
    : list event * gset string * result A :=
  (t0 ++ x.1.1, x.1.2, x.2).

(** The children of a trace, in the order they were started. *)
Fixpoint spawns (t : list event) : list run_args :=
  match t with
  | [] => []
  | Spawn a :: r => a :: spawns r
  | _ :: r => spawns r
  end.

Definition is_print (e : event) : bool :=
  match e with
  | Print _ => true
  | _ => false
  end.

(** A line that warns. *)
Definition is_warning (e : event) : bool :=
  match e with
  | Print line => String.prefix "Warning:" line
  | _ => false
  end.

(** The piped streams of the child can be read. *)
Definition readable (h : host) (a : run_args) (out err : string) : bool :=
  match captured h (ra_stdout a) (ra_text a) out,
        captured h (ra_stderr a) (ra_text a) err with
  | Normal _, Normal _ => true
  | _, _ => false
  end.

(** Whether [run_command] reports success on what the host did with the
    child: it ran to completion, its piped streams could be read, and its
    exit code is 0 or [check] is off. *)
Definition succeeds (h : host) (a : run_args) : bool :=
  match os_spawn h a with
  | Exited rc out err => readable h a out err && (negb (ra_check a) || (rc =? 0))
  | LaunchError _ => false
  end.


(** ** The children of [main] and what counts as their success *)

Section Steps.

Variable h : host.

Definition purge_args (system_pip : string) : run_args :=
  run_command_args (CmdList [system_pip; "cache"; "purge"]) None false false false.

Definition create_args : run_args :=
  run_command_args (create_command h) None false true true.

Definition upgrade_args : run_args :=
  run_command_args (upgrade_command h) None false true true.

Definition install_args (package : string) : run_args :=
  run_command_args (install_command h package) None false true true.

Definition test_args : run_args :=
  run_command_args (test_command h) None false true false.

(** The children of the cache purge: one when pip is on the search path. *)
Definition purge_spawns : list run_args :=
  match shutil_which h "pip" with
  | Some system_pip => [purge_args system_pip]
  | None => []
  end.

(** Teardown goes through: nothing to remove, or the removal does not
    raise. *)
Definition teardown_ok (w : gset string) : bool :=
  if bool_decide (venv_dir h ∈ w) then
    match rmtree_error h (venv_dir h) with
    | None => true
    | Some _ => false
    end
  else true.

Definition create_ok : bool := succeeds h create_args.
Definition upgrade_ok : bool := succeeds h upgrade_args.
Definition install_ok (package : string) : bool :=
  succeeds h (install_args package).
Definition verify_ok : bool := succeeds h test_args.



(** Every fatal step goes through. *)
Definition provisioned (w : gset string) : bool :=
  teardown_ok w && create_ok && upgrade_ok
  && forallb install_ok (packages_to_install)
  && verify_ok.

(** The steps of [main] from the cache purge on, and from the creation of
    the environment on. *)
Definition after_teardown : M unit :=
  (step2_purge h ;; step3_create h ;; step4_upgrade h ;; step5_install h ;;
   step6_verify h ;; step7_interactive h ;; step8_guidance h)%py.

Definition from_creation : M unit :=
  (step3_create h ;; step4_upgrade h ;; step5_install h ;;
   step6_verify h ;; step7_interactive h ;; step8_guidance h)%py.

Definition before_creation : M unit :=
  (branding ;; step1_teardown h ;; step2_purge h)%py.

Definition from_install : M unit :=
  (step5_install h ;; step6_verify h ;; step7_interactive h ;; step8_guidance h)%py.

Definition from_verify : M unit :=
  (step6_verify h ;; step7_interactive h ;; step8_guidance h)%py.

Definition from_interactive : M unit :=
  (step7_interactive h ;; step8_guidance h)%py.

(** A requirement that pins or bounds a version carries one of the
    characters of pip's specifiers ([==], [>=], [~=], [!=], [<], [>], [@]). *)
Definition has_version_specifier (requirement : string) : bool :=
  existsb (fun c => existsb (Ascii.eqb c) (list_ascii_of_string "=<>~!@"))
    (list_ascii_of_string requirement).




(** The claim of the spec on the cache purge, word for word: the step
    returns, warns when pip is not on the search path, and warns whenever
    the purge child exits with a code other than 0. *)
Definition purge_claim (w : gset string) : Prop :=
  exists t,
    step2_purge h w = (t, w, Normal tt) /\
    (shutil_which h "pip" = None -> existsb is_warning t = true) /\
    (forall system_pip rc out err,
       shutil_which h "pip" = Some system_pip ->
       os_spawn h (purge_args system_pip) = Exited rc out err ->
       rc <> 0 -> existsb is_warning t = true).


End Steps.

(** ** The claims of the spec on the runner, word for word *)

Section RunnerClaims.

Variable h : host.



End RunnerClaims.

(** ** The plan of a run and what the runner prints *)

Section Plan.

Variable h : host.

(** The children of a run in which every step goes through, in order. *)
Definition plan : list run_args :=
  purge_spawns h ++ [create_args h; upgrade_args h]
  ++ map (install_args h) packages_to_install
  ++ [test_args h; interactive_args h].

(** [if s: print(s.strip())] for the text of a captured stream. *)
Definition echo (s : string) : list event :=
  match s with
  | EmptyString => []
  | _ => [Print (str_strip h s)]
  end.


(** What [run_command] prints after a child that it captured in text mode
    and that counts as a success. *)
Definition child_echo (a : run_args) : list event :=
  match os_spawn h a with
  | Exited _ out err =>
      match text_decode h out, text_decode h err with
      | Decoded so, Decoded se => echo so ++ echo se
      | _, _ => []
      end
  | LaunchError _ => []
  end.

(** The trace of one round of the install loop that goes through. *)
Definition install_round (package : string) : list event :=
  [Print ("Installing " +:+ package +:+ "...");
   Spawn (install_args h package)]
  ++ child_echo (install_args h package)
  ++ [Print (package +:+ " installed.")].

End Plan.

(** No tree is removed in the trace. *)
Definition no_removal (t : list event) : bool :=
  forallb (fun e => match e with Rmtree _ => false | _ => true end) t.

(** A computation that removes no tree, whatever the file system. *)
Definition harmless {A} (m : M A) : Prop :=
  forall w, no_removal (trace_of (m w)) = true.

(** ** A POSIX host to run the script on *)

Module Posix.

Definition slash : ascii := ascii_of_nat 47.

(** [str.isspace] on a character of Latin-1, one byte per character: the
    white space of ASCII, U+0085 and U+00A0. *)
Definition isspace (c : ascii) : bool :=
  let n := nat_of_ascii c in
  ((9 <=? n)%nat && (n <=? 13)%nat) || ((28 <=? n)%nat && (n <=? 32)%nat)
  || (n =? 133)%nat || (n =? 160)%nat.

Fixpoint lstrip (s : string) : string :=
  match s with
  | EmptyString => EmptyString
  | String c r => if isspace c then lstrip r else s
  end.

Definition rstrip (s : string) : string :=
  String.rev (lstrip (String.rev s)).

(** [s.strip()] for text of Latin-1. *)
Definition strip (s : string) : string := rstrip (lstrip s).

(** [q] lies below the directory [path]: the slash is the one separator. *)
Definition below (path q : string) : bool := String.prefix (path +:+ "/") q.


(** [posixpath.join(a, *p)] *)
Definition join2 (path b : string) : string :=
  if String.prefix "/" b then b
  else
    match String.rev path with
    | EmptyString => b
    | String c _ => if Ascii.eqb c slash then path +:+ b else path +:+ "/" +:+ b
    end.

Definition join (a : string) (p : list string) : string := fold_left join2 p a.

(** [posixpath.split(p)]: the part up to and with the last slash, and the
    rest. *)
Fixpoint cut (p : string) : string * string :=
  match p with
  | EmptyString => (EmptyString, EmptyString)
  | String c r =>
      match cut r with
      | (EmptyString, tl) =>
          if Ascii.eqb c slash then (String c EmptyString, tl)
          else (EmptyString, String c tl)
      | (hd, tl) => (String c hd, tl)
      end
  end.

Fixpoint rstrip_slash_rev (r : string) : string :=
  match r with
  | String c r' => if Ascii.eqb c slash then rstrip_slash_rev r' else r
  | EmptyString => EmptyString
  end.

(** [posixpath.basename(p)] *)
Definition basename (p : string) : string := (cut p).2.

(** [posixpath.dirname(p)] *)
Definition dirname (p : string) : string :=
  let head := (cut p).1 in
  match rstrip_slash_rev (String.rev head) with
  | EmptyString => head
  | r => String.rev r
  end.

End Posix.

Module Sample.

(** A Linux host on which every child exits with [rc] and pip is found
    when [pip] is given.  The sample hosts decode with Latin-1: the codec is
    the identity on bytes and never fails. *)
Definition linux (pip : option string) (rc : Z) : host :=
  {| sys_executable := "/usr/bin/python3";
     script_dir := "/opt/qisclick";
     platform_system := "Linux";
     os_path_join := Posix.join;
     os_path_basename := Posix.basename;
     os_path_dirname := Posix.dirname;
     str_strip := Posix.strip;
     text_decode := Decoded;
     fs_below := Posix.below;
     shutil_which := fun _ => pip;
     rmtree_error := fun _ => None;
     os_spawn := fun _ => Exited rc "done" EmptyString;
     cpe_str := fun _ _ => "non-zero exit status" |}.

(** The same host with the children answered by [spawn]. *)
Definition linux_with (pip : option string) (spawn : run_args -> proc_outcome)
    (rm : option exn) : host :=
  {| sys_executable := "/usr/bin/python3";
     script_dir := "/opt/qisclick";
     platform_system := "Linux";
     os_path_join := Posix.join;
     os_path_basename := Posix.basename;
     os_path_dirname := Posix.dirname;
     str_strip := Posix.strip;
     text_decode := Decoded;
     fs_below := Posix.below;
     shutil_which := fun _ => pip;
     rmtree_error := fun _ => rm;
     os_spawn := spawn;
     cpe_str := fun _ _ => "non-zero exit status" |}.

(** Children on a host where the install of [bad] exits with 1 and every
    other child with 0. *)
Definition failing_install (bad : string) (a : run_args) : proc_outcome :=
  match ra_args a with
  | CmdList [_; Str "install"; Str package] =>
      if String.eqb package bad
      then Exited 1 EmptyString "ERROR: No matching distribution found"
      else Exited 0 "Successfully installed" EmptyString
  | _ => Exited 0 EmptyString EmptyString
  end.

(** Children on a host where the interactive session (the one child whose
    command is a string) exits with [rc] and every other child with 0. *)
Definition session_exits (rc : Z) (a : run_args) : proc_outcome :=
  match ra_args a with
  | CmdStr _ => Exited rc EmptyString EmptyString
  | CmdList _ => Exited 0 EmptyString EmptyString
  end.

(** Children on a host where the interactive session cannot be started. *)
Definition session_fails (e : exn) (a : run_args) : proc_outcome :=
  match ra_args a with
  | CmdStr _ => LaunchError e
  | CmdList _ => Exited 0 EmptyString EmptyString
  end.

(** Children on a host where the upgrade of pip exits with 1. *)
Definition failing_upgrade (a : run_args) : proc_outcome :=
  match ra_args a with
  | CmdList [_; Str "install"; Str "--upgrade"; Str "pip"] => Exited 1 EmptyString "ERROR"
  | _ => Exited 0 EmptyString EmptyString
  end.


End Sample.

Module Hosts.

(** Children on a host where the creation of the environment exits with 1
    and every other child with 0. *)
Definition failing_creation (a : run_args) : proc_outcome :=
  match ra_args a with
  | CmdList [_; Str "-m"; Str "venv"; _] => Exited 1 EmptyString "Error: venv"
  | _ => Exited 0 EmptyString EmptyString
  end.

(** Children on a host where the verification program exits with 1 and
    every other child with 0. *)
Definition failing_verification (a : run_args) : proc_outcome :=
  match ra_args a with
  | CmdList [_; Str "-c"; _] => Exited 1 EmptyString EmptyString
  | _ => Exited 0 EmptyString EmptyString
  end.

(** A Linux host on which the removal of the environment raises [e]. *)
Definition failing_removal (e : exn) : host :=
  Sample.linux_with None (fun _ => Exited 0 EmptyString EmptyString) (Some e).


End Hosts.

(** * Properties *)

(** ** Laws of the monad and of traces *)

Lemma triple_eta {A} (x : list event * gset string * result A) :
  x = (trace_of x, fs_of x, result_of x).
Proof. destruct x as [[t w] r]. reflexivity. Qed.

Lemma spawns_app t1 t2 : spawns (t1 ++ t2) = spawns t1 ++ spawns t2.
Proof.
  induction t1 as [|e t1 IH]; simpl; [reflexivity|].
  destruct e; simpl; rewrite IH; reflexivity.
Qed.

Lemma spawns_prints t : forallb is_print t = true -> spawns t = [].
Proof.
  induction t as [|e t IH]; simpl; [reflexivity|].
  destruct e; simpl; try discriminate; auto.
Qed.

(** A list splits at its first element that fails a test, if any does. *)
Lemma first_failure {A} (f : A -> bool) (l : list A) :
  forallb f l = true \/
  exists pre x post, l = pre ++ x :: post /\ forallb f pre = true /\ f x = false.
Proof.
  induction l as [|a l IH]; simpl; [left; reflexivity|].
  destruct (f a) eqn:Ea.
  - destruct IH as [IH|(pre & x & post & -> & Hpre & Hx)]; [left; exact IH|].
    right. exists (a :: pre), x, post. simpl. rewrite Ea. auto.
  - right. exists [], a, l. auto.
Qed.


(** ** The command runner *)

Ltac run_command_cases h rc Ec :=
  repeat first
    [ progress (cbn -[Z.eqb]; unfold lift; rewrite ?Ec)
    | match goal with
      | |- context [text_decode h ?x] => destruct (text_decode h x) as [[|? ?]|?]
      | |- context [rc =? 0] => destruct (rc =? 0)
      | |- context [match ?e with CalledProcessError _ _ _ _ _ => _ | _ => _ end] =>
          is_var e; destruct e as [? ? [[|? ?]|] [[|? ?]|] ?|?|?|?]
      end ].

Section Runner.

Variable h : host.

(** One equation for [run_command] on a command that can be printed: the
    child is spawned once, only lines follow, the file system is untouched
    and the call returns whether the child counts as a success. *)
Lemma run_command_blind command cwd shell check capture_output :
  printable command = true ->
  exists lines,
    forallb is_print lines = true /\
    forall w,
      run_command h command cwd shell check capture_output w
      = (Spawn (run_command_args command cwd shell check capture_output) :: lines, w,
         Normal (succeeds h (run_command_args command cwd shell check capture_output))).
Proof.
  unfold printable. destruct (command_text command) as [line|] eqn:Ec; [|discriminate].
  intros _.
  unfold run_command, try_except, bind, subprocess_run, succeeds, readable, captured.
  destruct check, capture_output; cbn -[Z.eqb];
    (destruct (os_spawn h _) as [rc out err|e];
     [ run_command_cases h rc Ec
     | destruct e as [rc' c' [[|? ?]|] [[|? ?]|] msg|msg|msg|msg];
       run_command_cases h 0 Ec ];
     eexists; (split; [|intros w; reflexivity]); reflexivity).
Qed.

Lemma run_command_eq command cwd shell check capture_output w :
  printable command = true ->
  exists lines,
    run_command h command cwd shell check capture_output w
    = (Spawn (run_command_args command cwd shell check capture_output) :: lines, w,
       Normal (succeeds h (run_command_args command cwd shell check capture_output)))
    /\ forallb is_print lines = true.
Proof.
  intros Hp.
  destruct (run_command_blind command cwd shell check capture_output Hp) as (lines & Hl & E).
  exists lines. split; [apply E|exact Hl].
Qed.

End Runner.

(** ** Sequencing *)

Lemma runs_seq {A B} (m : M A) (k : A -> M B) w t1 w1 a t2 w2 r :
  runs m w t1 w1 (Normal a) -> runs (k a) w1 t2 w2 r ->
  runs (bind m k) w (t1 ++ t2) w2 r.
Proof. unfold runs, bind. intros -> ->. reflexivity. Qed.

Lemma runs_halt {A B} (m : M A) (k : A -> M B) w t w' r :
  runs m w t w' (Raise r) -> runs (bind m k) w t w' (Raise r).
Proof. unfold runs, bind. intros ->. reflexivity. Qed.

Lemma runs_print line w : runs (print line) w [Print line] w (Normal tt).
Proof. reflexivity. Qed.

Lemma last_cons_some {A} (l : list A) (x y : A) :
  last l = Some x -> last (y :: l) = Some x.
Proof. intros H. rewrite last_cons, H. reflexivity. Qed.

Lemma last_suffix {A} (l1 l2 : list A) (x : A) :
  last l2 = Some x -> last (l1 ++ l2) = Some x.
Proof. intros H. rewrite last_app, H. reflexivity. Qed.

(** ** Computations that do not look at the file system *)

Lemma blind_ret {A} (a : A) : blind (ret a).
Proof. eexists _, _. reflexivity. Qed.

Lemma blind_raise {A} (r : raised) : blind (@raise A r).
Proof. eexists _, _. reflexivity. Qed.

Lemma blind_print line : blind (print line).
Proof. eexists _, _. reflexivity. Qed.

Lemma blind_bind {A B} (m : M A) (k : A -> M B) :
  blind m -> (forall a, blind (k a)) -> blind (bind m k).
Proof.
  intros (t & r & E) Hk. destruct r as [a|r].
  - destruct (Hk a) as (t' & r' & E').
    exists (t ++ t'), r'. intros w. unfold bind. rewrite E, E'. reflexivity.
  - exists t, (Raise r). intros w. unfold bind. rewrite E. reflexivity.
Qed.

Lemma blind_when c (body : M unit) : blind body -> blind (when c body).
Proof. destruct c; simpl; [auto|intros _; apply blind_ret]. Qed.

Lemma blind_try_except {A} (body : M A) handlers :
  blind body -> (forall e hd, handlers e = Some hd -> blind hd) ->
  blind (try_except body handlers).
Proof.
  intros (t & r & E) Hh.
  destruct r as [a|[code|e]].
  - exists t, (Normal a). intros w. unfold try_except. rewrite E. reflexivity.
  - exists t, (Raise (SystemExit code)). intros w. unfold try_except. rewrite E. reflexivity.
  - destruct (handlers e) as [hd|] eqn:Eh.
    + destruct (Hh e hd Eh) as (t' & r' & E').
      exists (t ++ t'), r'. intros w. unfold try_except. rewrite E, Eh, E'. reflexivity.
    + exists t, (Raise (Exc e)). intros w. unfold try_except. rewrite E, Eh. reflexivity.
Qed.

Lemma blind_lift {A} (x : result A) : blind (lift x).
Proof. eexists _, _. reflexivity. Qed.

Lemma blind_subprocess_run h a : blind (subprocess_run h a).
Proof.
  unfold blind, subprocess_run.
  destruct (os_spawn h a) as [rc out err|e];
    [destruct (captured h _ _ out);
     [destruct (captured h _ _ err); [destruct (_ && _)|]|]|];
    eexists _, _; reflexivity.
Qed.

Lemma blind_run_command h command cwd shell check capture_output :
  blind (run_command h command cwd shell check capture_output).
Proof.
  unfold run_command. apply blind_try_except.
  - apply blind_bind; [apply blind_subprocess_run|intros r].
    apply blind_bind; [|intros _; apply blind_ret].
    apply blind_when, blind_bind; [|intros _]; apply blind_when, blind_print.
  - intros e hd He. destruct e; injection He as <-;
      repeat first
        [ apply blind_bind; [|intros ?]
        | apply blind_when
        | apply blind_print
        | apply blind_ret
        | apply blind_lift ].
Qed.

Create HintDb blind.
#[local] Hint Resolve blind_ret blind_raise blind_print blind_when
  blind_subprocess_run blind_run_command : blind.

Ltac blind_steps :=
  repeat first
    [ apply blind_bind; [|intros ?]
    | apply blind_when
    | apply blind_try_except; [|intros ? ? [= <-]]
    | match goal with |- blind (if ?c then _ else _) => destruct c end
    | match goal with |- blind (match ?c with _ => _ end) => destruct c end
    | solve [unfold sys_exit; auto with blind] ].

Lemma blind_install_packages h packages : blind (install_packages h packages).
Proof.
  induction packages as [|package rest IH]; simpl; [apply blind_ret|].
  blind_steps.
Qed.

Lemma blind_after_teardown h : blind (after_teardown h).
Proof.
  unfold after_teardown, step2_purge, step3_create, step4_upgrade, step5_install,
    step6_verify, step7_interactive, step8_guidance.
  blind_steps; apply blind_install_packages.
Qed.

(** ** The steps, one at a time *)

Section StepLemmas.

Variable h : host.

Lemma branding_runs w :
  exists t, runs branding w t w (Normal tt) /\ forallb is_print t = true.
Proof. eexists. split; reflexivity. Qed.

Lemma step1_absent w :
  venv_dir h ∉ w ->
  runs (step1_teardown h) w
    [Print ("No existing virtual environment found at " +:+ venv_dir h +:+ ", skipping removal.")]
    w (Normal tt).
Proof.
  intros Hn. unfold runs, step1_teardown, bind, os_path_exists.
  rewrite bool_decide_eq_false_2 by exact Hn. reflexivity.
Qed.

Lemma step1_removed w :
  venv_dir h ∈ w -> rmtree_error h (venv_dir h) = None ->
  runs (step1_teardown h) w
    [Print ("Removing existing virtual environment at " +:+ venv_dir h +:+ "...");
     Rmtree (venv_dir h);
     Print "Old virtual environment removed successfully."]
    (filter (fun q => under h (venv_dir h) q = false) w) (Normal tt).
Proof.
  intros Hin Hrm. unfold runs, step1_teardown, bind, os_path_exists.
  rewrite bool_decide_eq_true_2 by exact Hin. simpl.
  unfold try_except, bind, shutil_rmtree. rewrite Hrm. reflexivity.
Qed.

Lemma step1_oserror w e :
  venv_dir h ∈ w -> rmtree_error h (venv_dir h) = Some e -> is_OSError e = true ->
  runs (step1_teardown h) w
    [Print ("Removing existing virtual environment at " +:+ venv_dir h +:+ "...");
     Rmtree (venv_dir h);
     Print ("Error removing old virtual environment: " +:+ str_exn e)]
    w (Raise (SystemExit 1)).
Proof.
  intros Hin Hrm Hos. unfold runs, step1_teardown, bind, os_path_exists.
  rewrite bool_decide_eq_true_2 by exact Hin. simpl.
  unfold try_except, bind, shutil_rmtree. rewrite Hrm, Hos. reflexivity.
Qed.

Lemma step1_uncaught w e :
  venv_dir h ∈ w -> rmtree_error h (venv_dir h) = Some e -> is_OSError e = false ->
  runs (step1_teardown h) w
    [Print ("Removing existing virtual environment at " +:+ venv_dir h +:+ "...");
     Rmtree (venv_dir h)]
    w (Raise (Exc e)).
Proof.
  intros Hin Hrm Hos. unfold runs, step1_teardown, bind, os_path_exists.
  rewrite bool_decide_eq_true_2 by exact Hin. simpl.
  unfold try_except, bind, shutil_rmtree. rewrite Hrm, Hos. reflexivity.
Qed.

(** A gate [if not run_command(...): print(...); sys.exit(1)] followed by a
    line. *)
Lemma gate_runs command capture_output intro failure success w :
  printable command = true ->
  exists t,
    runs (print intro ;;
          ok <- run_command h command None false true capture_output ;;
          when (negb ok) (print failure ;; sys_exit 1) ;;
          print success)%py w t w
      (if succeeds h (run_command_args command None false true capture_output)
       then Normal tt else Raise (SystemExit 1))
    /\ spawns t = [run_command_args command None false true capture_output]
    /\ (succeeds h (run_command_args command None false true capture_output) = false ->
        last t = Some (Print failure)).
Proof.
  intros Hp.
  destruct (run_command_eq h command None false true capture_output w Hp) as (lines & E & Hl).
  unfold runs, bind. simpl. rewrite E.
  destruct (succeeds h _); simpl; eexists; (split; [reflexivity|]); simpl;
    rewrite spawns_app, (spawns_prints _ Hl); (split; [reflexivity|]).
  - discriminate.
  - intros _. rewrite app_comm_cons. apply last_snoc.
Qed.

Lemma step3_runs w :
  exists t,
    runs (step3_create h) w t w (if create_ok h then Normal tt else Raise (SystemExit 1))
    /\ spawns t = [create_args h]
    /\ (create_ok h = false ->
        last t = Some (Print "Failed to create virtual environment. Exiting.")).
Proof. apply gate_runs. reflexivity. Qed.

Lemma step4_runs w :
  exists t,
    runs (step4_upgrade h) w t w (if upgrade_ok h then Normal tt else Raise (SystemExit 1))
    /\ spawns t = [upgrade_args h]
    /\ (upgrade_ok h = false -> last t = Some (Print "Failed to upgrade pip. Exiting.")).
Proof. apply gate_runs. reflexivity. Qed.

Lemma step2_no_pip w :
  shutil_which h "pip" = None ->
  runs (step2_purge h) w
    [Print "Attempting to clear pip cache for Qiskit residues...";
     Print "Warning: 'pip' command not found in system PATH. Cannot purge cache."]
    w (Normal tt).
Proof. intros E. unfold runs, step2_purge, bind. simpl. rewrite E. reflexivity. Qed.

Lemma step2_exited w system_pip rc out err :
  shutil_which h "pip" = Some system_pip ->
  os_spawn h (purge_args system_pip) = Exited rc out err ->
  runs (step2_purge h) w
    [Print "Attempting to clear pip cache for Qiskit residues...";
     Spawn (purge_args system_pip);
     Print "Pip cache purged successfully (or no cache to purge)."]
    w (Normal tt).
Proof.
  intros E Es. unfold runs, step2_purge, bind. simpl. rewrite E.
  unfold run_command, try_except, bind, subprocess_run.
  fold (purge_args system_pip). rewrite Es. reflexivity.
Qed.

Lemma step2_launch_error w system_pip e :
  shutil_which h "pip" = Some system_pip ->
  os_spawn h (purge_args system_pip) = LaunchError e ->
  exists lines,
    runs (step2_purge h) w
      (Print "Attempting to clear pip cache for Qiskit residues..."
       :: Spawn (purge_args system_pip)
       :: lines
       ++ [Print "Warning: Could not purge pip cache. This might be normal if no cache exists."])
      w (Normal tt)
    /\ forallb is_print lines = true.
Proof.
  intros E Es.
  destruct (run_command_eq h (CmdList [system_pip; "cache"; "purge"]) None false false false w eq_refl)
    as (lines & Eq & Hl).
  fold (purge_args system_pip) in Eq. unfold succeeds in Eq. rewrite Es in Eq.
  exists lines. split; [|exact Hl].
  unfold runs, step2_purge, bind. simpl. rewrite E, Eq. reflexivity.
Qed.

Lemma step2_runs w :
  exists t, runs (step2_purge h) w t w (Normal tt) /\ spawns t = purge_spawns h.
Proof.
  unfold purge_spawns.
  destruct (shutil_which h "pip") as [system_pip|] eqn:E.
  - destruct (os_spawn h (purge_args system_pip)) as [rc out err|e] eqn:Es.
    + eexists. split; [eapply step2_exited; eassumption|reflexivity].
    + destruct (step2_launch_error w system_pip e E Es) as (lines & R & Hl).
      eexists. split; [exact R|]. simpl.
      rewrite spawns_app, (spawns_prints _ Hl). reflexivity.
  - eexists. split; [apply step2_no_pip; exact E|reflexivity].
Qed.

(** The loop runs through a list of packages that all install. *)
Lemma install_packages_all packages w :
  forallb (install_ok h) packages = true ->
  exists t,
    runs (install_packages h packages) w t w (Normal tt)
    /\ spawns t = map (install_args h) packages.
Proof.
  induction packages as [|package rest IH]; simpl; intros Hok.
  - eexists. split; reflexivity.
  - apply andb_prop in Hok as [Hp Hrest].
    destruct (IH Hrest) as (t & R & Hs).
    destruct (run_command_eq h (install_command h package) None false true true w eq_refl)
      as (lines & Eq & Hl).
    fold (install_args h package) in Eq. fold (install_ok h package) in Eq.
    rewrite Hp in Eq.
    unfold runs in *. unfold bind. simpl. rewrite Eq. simpl. rewrite R.
    eexists. split; [reflexivity|]. simpl.
    rewrite spawns_app, (spawns_prints _ Hl). simpl. rewrite Hs. reflexivity.
Qed.

(** The loop stops at the first package that fails to install: after the
    child of that package only lines follow, the last being the
    installation error. *)
Lemma install_packages_stop pre package post w :
  forallb (install_ok h) pre = true ->
  install_ok h package = false ->
  exists t before lines,
    runs (install_packages h (pre ++ package :: post)) w t w (Raise (SystemExit 1))
    /\ spawns t = map (install_args h) (pre ++ [package])
    /\ t = before ++ Spawn (install_args h package) :: lines
            ++ [Print ("Error installing " +:+ package
                       +:+ ". Please check your internet connection. Exiting.")]
    /\ forallb is_print lines = true.
Proof.
  intros Hpre Hfail. induction pre as [|q pre IH]; simpl in *.
  - destruct (run_command_eq h (install_command h package) None false true true w eq_refl)
      as (lines & Eq & Hl).
    fold (install_args h package) in Eq. fold (install_ok h package) in Eq.
    rewrite Hfail in Eq.
    unfold runs, bind. simpl. rewrite Eq. simpl.
    exists (Print ("Installing " +:+ package +:+ "...")
            :: Spawn (install_args h package) :: lines
            ++ [Print ("Error installing " +:+ package
                       +:+ ". Please check your internet connection. Exiting.")]),
      [Print ("Installing " +:+ package +:+ "...")], lines.
    split; [reflexivity|]. split; [|split; [reflexivity|exact Hl]].
    simpl. rewrite spawns_app, (spawns_prints _ Hl). reflexivity.
  - apply andb_prop in Hpre as [Hq Hpre].
    destruct (IH Hpre) as (t & before & lines' & R & Hs & Ht & Hl').
    destruct (run_command_eq h (install_command h q) None false true true w eq_refl)
      as (lines & Eq & Hl).
    fold (install_args h q) in Eq. fold (install_ok h q) in Eq.
    rewrite Hq in Eq.
    unfold runs in *. unfold bind. simpl. rewrite Eq. simpl. rewrite R.
    eexists _, (Print ("Installing " +:+ q +:+ "...") :: Spawn (install_args h q)
                :: lines ++ Print (q +:+ " installed.") :: before), lines'.
    split; [reflexivity|]. split; [|split; [|exact Hl']].
    + simpl. rewrite spawns_app, (spawns_prints _ Hl). simpl. rewrite Hs. reflexivity.
    + rewrite Ht. simpl. rewrite <- app_assoc. reflexivity.
Qed.

Lemma step5_all w :
  forallb (install_ok h) packages_to_install = true ->
  exists t,
    runs (step5_install h) w t w (Normal tt)
    /\ spawns t = map (install_args h) packages_to_install.
Proof.
  intros Hok. destruct (install_packages_all _ w Hok) as (t & R & Hs).
  eexists. split.
  - unfold step5_install.
    eapply runs_seq; [apply runs_print|].
    eapply runs_seq; [exact R|]. apply runs_print.
  - cbn [app spawns]. rewrite spawns_app, Hs. cbn [spawns]. apply app_nil_r.
Qed.

Lemma step5_stop pre package post w :
  packages_to_install = pre ++ package :: post ->
  forallb (install_ok h) pre = true ->
  install_ok h package = false ->
  exists t before lines,
    runs (step5_install h) w t w (Raise (SystemExit 1))
    /\ spawns t = map (install_args h) (pre ++ [package])
    /\ t = before ++ Spawn (install_args h package) :: lines
            ++ [Print ("Error installing " +:+ package
                       +:+ ". Please check your internet connection. Exiting.")]
    /\ forallb is_print lines = true.
Proof.
  intros Hsplit Hpre Hfail.
  destruct (install_packages_stop pre package post w Hpre Hfail)
    as (t & before & lines & R & Hs & Ht & Hl).
  exists (Print "Installing Qiskit and its components (latest compatible versions)..." :: t),
    (Print "Installing Qiskit and its components (latest compatible versions)..." :: before),
    lines.
  split; [|split; [|split]].
  - unfold step5_install.
    apply (runs_seq _ _ _ _ _ _ _ _ _ (runs_print _ _)).
    apply runs_halt. rewrite Hsplit. exact R.
  - exact Hs.
  - rewrite Ht. reflexivity.
  - exact Hl.
Qed.

Lemma step6_runs w :
  exists t,
    runs (step6_verify h) w t w (if verify_ok h then Normal tt else Raise (SystemExit 1))
    /\ spawns t = [test_args h]
    /\ (verify_ok h = false ->
        last t = Some (Print "Qiskit test failed. Please review the output above for errors.")).
Proof.
  destruct (run_command_eq h (test_command h) None false true false w eq_refl) as (lines & E & Hl).
  fold (test_args h) in E. fold (verify_ok h) in E.
  unfold runs, step6_verify, bind. simpl. rewrite E.
  destruct (verify_ok h); simpl; eexists; (split; [reflexivity|]); simpl;
    rewrite spawns_app, (spawns_prints _ Hl); (split; [reflexivity|]).
  - discriminate.
  - intros _. rewrite app_comm_cons. apply last_snoc.
Qed.

Lemma step7_exited w rc out err :
  os_spawn h (interactive_args h) = Exited rc out err ->
  runs (step7_interactive h) w
    [Print (PyStr.nl +:+ "Installation and test complete! Your 'qisclick' virtual environment is ready.");
     Print "Launching an interactive Python interpreter within 'qisclick' environment...";
     Print "Type 'exit()' and press Enter to quit the interpreter.";
     Spawn (interactive_args h)]
    w (Normal tt).
Proof.
  intros E. unfold runs, step7_interactive, bind, try_except, subprocess_run. simpl.
  unfold bind. rewrite E. reflexivity.
Qed.

Lemma step7_launch_error w e :
  os_spawn h (interactive_args h) = LaunchError e ->
  runs (step7_interactive h) w
    [Print (PyStr.nl +:+ "Installation and test complete! Your 'qisclick' virtual environment is ready.");
     Print "Launching an interactive Python interpreter within 'qisclick' environment...";
     Print "Type 'exit()' and press Enter to quit the interpreter.";
     Spawn (interactive_args h);
     Print ("Error launching interactive Python interpreter: " +:+ str_exn e)]
    w (Raise (SystemExit 1)).
Proof.
  intros E. unfold runs, step7_interactive, bind, try_except, subprocess_run. simpl.
  unfold bind. rewrite E. reflexivity.
Qed.

Lemma step8_runs w :
  runs (step8_guidance h) w
    [Print (PyStr.nl +:+ "Exited 'qisclick' interactive Python interpreter.");
     Print "You can activate it again anytime by running:";
     Print (guidance_line h)]
    w (Normal tt).
Proof. reflexivity. Qed.

End StepLemmas.

(** ** Getting from one step to the next *)

Lemma reaches_seq {A B} (m : M A) (k : A -> M B) w t w1 a :
  runs m w t w1 (Normal a) -> reaches (bind m k) w t w1 (k a).
Proof. intros R t' w' r R'. eapply runs_seq; eassumption. Qed.

Lemma reaches_trans {A} (m m' m'' : M A) w t0 w1 t1 w2 :
  reaches m w t0 w1 m' -> reaches m' w1 t1 w2 m'' ->
  reaches m w (t0 ++ t1) w2 m''.
Proof.
  intros H1 H2 t w' r R. rewrite <- app_assoc. apply H1, H2, R.
Qed.

Lemma runs_here {A} (m : M A) w : runs m w (trace_of (m w)) (fs_of (m w)) (result_of (m w)).
Proof. unfold runs. apply triple_eta. Qed.

Lemma runs_det {A} (m : M A) w t w' r t2 w2 r2 :
  runs m w t w' r -> runs m w t2 w2 r2 -> t = t2 /\ w' = w2 /\ r = r2.
Proof. unfold runs. intros -> [= -> -> ->]. auto. Qed.

Lemma reaches_prepend {A} (m m' : M A) w t0 w1 :
  reaches m w t0 w1 m' -> m w = prepend t0 (m' w1).
Proof. intros H. apply (H _ _ _ (runs_here m' w1)). Qed.

Section Reach.

Variable h : host.

Lemma teardown_runs w :
  teardown_ok h w = true ->
  exists t w1,
    runs (step1_teardown h) w t w1 (Normal tt) /\ spawns t = []
    /\ w1 = (if bool_decide (venv_dir h ∈ w)
             then filter (fun q => under h (venv_dir h) q = false) w else w).
Proof.
  unfold teardown_ok. destruct (bool_decide (venv_dir h ∈ w)) eqn:Hd.
  - apply bool_decide_eq_true_1 in Hd.
    destruct (rmtree_error h (venv_dir h)) eqn:Hrm; [discriminate|]. intros _.
    eexists _, _. split; [apply step1_removed; assumption|]. split; reflexivity.
  - apply bool_decide_eq_false_1 in Hd. intros _.
    eexists _, _. split; [apply step1_absent; assumption|]. split; reflexivity.
Qed.

Lemma main_shape : main h = (branding ;; step1_teardown h ;; after_teardown h)%py.
Proof. reflexivity. Qed.

Lemma after_teardown_shape : after_teardown h = (step2_purge h ;; from_creation h)%py.
Proof. reflexivity. Qed.

Lemma from_creation_shape :
  from_creation h = (step3_create h ;; step4_upgrade h ;; from_install h)%py.
Proof. reflexivity. Qed.

Lemma from_install_shape : from_install h = (step5_install h ;; from_verify h)%py.
Proof. reflexivity. Qed.

Lemma from_verify_shape : from_verify h = (step6_verify h ;; from_interactive h)%py.
Proof. reflexivity. Qed.

Lemma from_interactive_shape :
  from_interactive h = (step7_interactive h ;; step8_guidance h)%py.
Proof. reflexivity. Qed.

Lemma main_reaches_after_teardown w :
  teardown_ok h w = true ->
  exists t0 w1, spawns t0 = [] /\ reaches (main h) w t0 w1 (after_teardown h).
Proof.
  intros Hok.
  destruct (branding_runs w) as (tb & Rb & Hb).
  destruct (teardown_runs w Hok) as (t1 & w1 & R1 & Hs1 & _).
  exists (tb ++ t1), w1. split.
  - rewrite spawns_app, (spawns_prints _ Hb), Hs1. reflexivity.
  - rewrite main_shape.
    eapply reaches_trans; [apply (reaches_seq _ _ _ _ _ _ Rb)|].
    exact (reaches_seq _ (fun _ => after_teardown h) _ _ _ _ R1).
Qed.

Lemma after_teardown_reaches_creation w :
  exists t0, spawns t0 = purge_spawns h
    /\ reaches (after_teardown h) w t0 w (from_creation h).
Proof.
  destruct (step2_runs h w) as (t2 & R2 & Hs2).
  exists t2. split; [exact Hs2|]. rewrite after_teardown_shape.
  exact (reaches_seq _ (fun _ => from_creation h) _ _ _ _ R2).
Qed.

Lemma creation_reaches_install w :
  create_ok h = true -> upgrade_ok h = true ->
  exists t0, spawns t0 = [create_args h; upgrade_args h]
    /\ reaches (from_creation h) w t0 w (from_install h).
Proof.
  intros Hc Hu.
  destruct (step3_runs h w) as (t3 & R3 & Hs3 & _). rewrite Hc in R3.
  destruct (step4_runs h w) as (t4 & R4 & Hs4 & _). rewrite Hu in R4.
  exists (t3 ++ t4). split.
  - rewrite spawns_app, Hs3, Hs4. reflexivity.
  - rewrite from_creation_shape.
    eapply reaches_trans; [apply (reaches_seq _ _ _ _ _ _ R3)|].
    exact (reaches_seq _ (fun _ => from_install h) _ _ _ _ R4).
Qed.

Lemma install_reaches_verify w :
  forallb (install_ok h) packages_to_install = true ->
  exists t0, spawns t0 = map (install_args h) packages_to_install
    /\ reaches (from_install h) w t0 w (from_verify h).
Proof.
  intros Hi. destruct (step5_all h w Hi) as (t5 & R5 & Hs5).
  exists t5. split; [exact Hs5|]. rewrite from_install_shape.
  exact (reaches_seq _ (fun _ => from_verify h) _ _ _ _ R5).
Qed.

Lemma verify_reaches_interactive w :
  verify_ok h = true ->
  exists t0, spawns t0 = [test_args h]
    /\ reaches (from_verify h) w t0 w (from_interactive h).
Proof.
  intros Hv. destruct (step6_runs h w) as (t6 & R6 & Hs6 & _). rewrite Hv in R6.
  exists t6. split; [exact Hs6|]. rewrite from_verify_shape.
  exact (reaches_seq _ (fun _ => from_interactive h) _ _ _ _ R6).
Qed.

(** With teardown, creation and upgrade through, [main] gets to the loop
    having started the purge (if any), the creation and the upgrade. *)
Lemma main_reaches_install w :
  teardown_ok h w = true -> create_ok h = true -> upgrade_ok h = true ->
  exists t0 w1,
    spawns t0 = purge_spawns h ++ [create_args h; upgrade_args h]
    /\ reaches (main h) w t0 w1 (from_install h).
Proof.
  intros Ht Hc Hu.
  destruct (main_reaches_after_teardown w Ht) as (ta & w1 & Hsa & Ra).
  destruct (after_teardown_reaches_creation w1) as (tb & Hsb & Rb).
  destruct (creation_reaches_install w1 Hc Hu) as (tc & Hsc & Rc).
  exists ((ta ++ tb) ++ tc), w1. split.
  - rewrite !spawns_app, Hsa, Hsb, Hsc. reflexivity.
  - eapply reaches_trans; [eapply reaches_trans|]; eassumption.
Qed.

(** With every fatal step through, [main] gets to the interactive step. *)
Lemma main_reaches_interactive w :
  provisioned h w = true ->
  exists t0 w1,
    spawns t0 = purge_spawns h ++ [create_args h; upgrade_args h]
                ++ map (install_args h) packages_to_install ++ [test_args h]
    /\ reaches (main h) w t0 w1 (from_interactive h).
Proof.
  unfold provisioned. rewrite !andb_true_iff. intros [[[[Ht Hc] Hu] Hi] Hv].
  destruct (main_reaches_install w Ht Hc Hu) as (ta & w1 & Hsa & Ra).
  destruct (install_reaches_verify w1 Hi) as (tb & Hsb & Rb).
  destruct (verify_reaches_interactive w1 Hv) as (tc & Hsc & Rc).
  exists ((ta ++ tb) ++ tc), w1. split.
  - rewrite !spawns_app, Hsa, Hsb, Hsc. rewrite <- !app_assoc. reflexivity.
  - eapply reaches_trans; [eapply reaches_trans|]; eassumption.
Qed.

End Reach.

(** ** How a run of [main] ends *)

Section Outcomes.

Variable h : host.

Lemma main_teardown_oserror w e :
  venv_dir h ∈ w ->
  rmtree_error h (venv_dir h) = Some e ->
  is_OSError e = true ->
  exists t,
    runs (main h) w t w (Raise (SystemExit 1)) /\
    last t = Some (Print ("Error removing old virtual environment: " +:+ str_exn e)) /\
    spawns t = [].
Proof.
  intros Hin Hrm Hos.
  destruct (branding_runs w) as (tb & Rb & Hb).
  pose proof (step1_oserror h w e Hin Hrm Hos) as R1.
  eexists. split; [|split].
  - rewrite main_shape. eapply runs_seq; [exact Rb|]. apply runs_halt. exact R1.
  - apply last_suffix. reflexivity.
  - rewrite spawns_app, (spawns_prints _ Hb). reflexivity.
Qed.

Lemma main_teardown_uncaught w e :
  venv_dir h ∈ w ->
  rmtree_error h (venv_dir h) = Some e ->
  is_OSError e = false ->
  exists t, runs (main h) w t w (Raise (Exc e)) /\ spawns t = [].
Proof.
  intros Hin Hrm Hos.
  destruct (branding_runs w) as (tb & Rb & Hb).
  pose proof (step1_uncaught h w e Hin Hrm Hos) as R1.
  eexists. split.
  - rewrite main_shape. eapply runs_seq; [exact Rb|]. apply runs_halt. exact R1.
  - rewrite spawns_app, (spawns_prints _ Hb). reflexivity.
Qed.

Lemma main_create_fails w :
  teardown_ok h w = true -> create_ok h = false ->
  exists t w',
    runs (main h) w t w' (Raise (SystemExit 1)) /\
    last t = Some (Print "Failed to create virtual environment. Exiting.") /\
    spawns t = purge_spawns h ++ [create_args h].
Proof.
  intros Ht Hc.
  destruct (main_reaches_after_teardown h w Ht) as (ta & w1 & Hsa & Ra).
  destruct (after_teardown_reaches_creation h w1) as (tb & Hsb & Rb).
  destruct (step3_runs h w1) as (t3 & R3 & Hs3 & Hl3). rewrite Hc in R3.
  exists ((ta ++ tb) ++ t3), w1. split; [|split].
  - apply (reaches_trans _ _ _ _ _ _ _ _ Ra Rb).
    rewrite from_creation_shape. apply runs_halt. exact R3.
  - apply last_suffix, Hl3, Hc.
  - rewrite !spawns_app, Hsa, Hsb, Hs3. reflexivity.
Qed.

Lemma main_upgrade_fails w :
  teardown_ok h w = true -> create_ok h = true -> upgrade_ok h = false ->
  exists t w',
    runs (main h) w t w' (Raise (SystemExit 1)) /\
    last t = Some (Print "Failed to upgrade pip. Exiting.") /\
    spawns t = purge_spawns h ++ [create_args h; upgrade_args h].
Proof.
  intros Ht Hc Hu.
  destruct (main_reaches_after_teardown h w Ht) as (ta & w1 & Hsa & Ra).
  destruct (after_teardown_reaches_creation h w1) as (tb & Hsb & Rb).
  destruct (step3_runs h w1) as (t3 & R3 & Hs3 & _). rewrite Hc in R3.
  destruct (step4_runs h w1) as (t4 & R4 & Hs4 & Hl4). rewrite Hu in R4.
  exists ((ta ++ tb) ++ t3 ++ t4), w1. split; [|split].
  - apply (reaches_trans _ _ _ _ _ _ _ _ Ra Rb).
    rewrite from_creation_shape. eapply runs_seq; [exact R3|].
    apply runs_halt. exact R4.
  - apply last_suffix, last_suffix, Hl4, Hu.
  - rewrite !spawns_app, Hsa, Hsb, Hs3, Hs4. reflexivity.
Qed.

Lemma main_install_stops w pre package post :
  packages_to_install = pre ++ package :: post ->
  teardown_ok h w = true -> create_ok h = true -> upgrade_ok h = true ->
  forallb (install_ok h) pre = true ->
  install_ok h package = false ->
  exists t w' before lines,
    runs (main h) w t w' (Raise (SystemExit 1)) /\
    t = before ++ Spawn (install_args h package) :: lines
        ++ [Print ("Error installing " +:+ package
                   +:+ ". Please check your internet connection. Exiting.")] /\
    forallb is_print lines = true /\
    spawns t = purge_spawns h ++ [create_args h; upgrade_args h]
               ++ map (install_args h) (pre ++ [package]).
Proof.
  intros Hsplit Ht Hc Hu Hpre Hfail.
  destruct (main_reaches_install h w Ht Hc Hu) as (t0 & w1 & Hs0 & Reach).
  destruct (step5_stop h pre package post w1 Hsplit Hpre Hfail)
    as (t5 & before & lines & R5 & Hs5 & Ht5 & Hl).
  exists (t0 ++ t5), w1, (t0 ++ before), lines. split; [|split; [|split]].
  - apply Reach. rewrite from_install_shape. apply runs_halt. exact R5.
  - rewrite Ht5, <- app_assoc. reflexivity.
  - exact Hl.
  - rewrite spawns_app, Hs0, Hs5, <- app_assoc. reflexivity.
Qed.

Lemma main_verify_fails w :
  teardown_ok h w = true -> create_ok h = true -> upgrade_ok h = true ->
  forallb (install_ok h) packages_to_install = true ->
  verify_ok h = false ->
  exists t w',
    runs (main h) w t w' (Raise (SystemExit 1)) /\
    last t = Some (Print "Qiskit test failed. Please review the output above for errors.") /\
    spawns t = purge_spawns h ++ [create_args h; upgrade_args h]
               ++ map (install_args h) packages_to_install ++ [test_args h].
Proof.
  intros Ht Hc Hu Hi Hv.
  destruct (main_reaches_install h w Ht Hc Hu) as (ta & w1 & Hsa & Ra).
  destruct (install_reaches_verify h w1 Hi) as (tb & Hsb & Rb).
  destruct (step6_runs h w1) as (t6 & R6 & Hs6 & Hl6). rewrite Hv in R6.
  exists ((ta ++ tb) ++ t6), w1. split; [|split].
  - apply (reaches_trans _ _ _ _ _ _ _ _ Ra Rb).
    rewrite from_verify_shape. apply runs_halt. exact R6.
  - apply last_suffix, Hl6, Hv.
  - rewrite !spawns_app, Hsa, Hsb, Hs6, <- !app_assoc. reflexivity.
Qed.

Lemma main_launch_fails w e :
  provisioned h w = true ->
  os_spawn h (interactive_args h) = LaunchError e ->
  exists t w',
    runs (main h) w t w' (Raise (SystemExit 1)) /\
    last t = Some (Print ("Error launching interactive Python interpreter: " +:+ str_exn e)) /\
    spawns t = purge_spawns h ++ [create_args h; upgrade_args h]
               ++ map (install_args h) packages_to_install
               ++ [test_args h; interactive_args h].
Proof.
  intros Hp He.
  destruct (main_reaches_interactive h w Hp) as (t0 & w1 & Hs0 & Reach).
  pose proof (step7_launch_error h w1 e He) as R7.
  eexists _, w1. split; [|split].
  - apply Reach. rewrite from_interactive_shape. apply runs_halt. exact R7.
  - apply last_suffix. reflexivity.
  - rewrite spawns_app, Hs0, <- !app_assoc. reflexivity.
Qed.

Lemma main_completes w rc out err :
  provisioned h w = true ->
  os_spawn h (interactive_args h) = Exited rc out err ->
  exists t0 w',
    runs (main h) w
      (t0 ++ [Spawn (interactive_args h);
              Print (PyStr.nl +:+ "Exited 'qisclick' interactive Python interpreter.");
              Print "You can activate it again anytime by running:";
              Print (guidance_line h)])
      w' (Normal tt) /\
    spawns t0 = purge_spawns h ++ [create_args h; upgrade_args h]
                ++ map (install_args h) packages_to_install ++ [test_args h].
Proof.
  intros Hp He.
  destruct (main_reaches_interactive h w Hp) as (t0 & w1 & Hs0 & Reach).
  pose proof (step7_exited h w1 rc out err He) as R7.
  pose proof (step8_runs h w1) as R8.
  exists (t0 ++
          [Print (PyStr.nl +:+ "Installation and test complete! Your 'qisclick' virtual environment is ready.");
           Print "Launching an interactive Python interpreter within 'qisclick' environment...";
           Print "Type 'exit()' and press Enter to quit the interpreter."]), w1.
  split.
  - rewrite <- app_assoc. apply Reach. rewrite from_interactive_shape.
    exact (runs_seq _ _ _ _ _ _ _ _ _ R7 R8).
  - rewrite spawns_app, Hs0. simpl. rewrite app_nil_r. reflexivity.
Qed.

(** After a teardown that goes through, the children of the run start with
    the purge (if any) and the creation. *)
Lemma main_spawns_creation w :
  teardown_ok h w = true ->
  exists rest, spawns (trace_of (main h w)) = purge_spawns h ++ create_args h :: rest.
Proof.
  intros Ht.
  destruct (main_reaches_after_teardown h w Ht) as (ta & w1 & Hsa & Ra).
  destruct (after_teardown_reaches_creation h w1) as (tb & Hsb & Rb).
  destruct (step3_runs h w1) as (t3 & R3 & Hs3 & _).
  pose proof (reaches_trans _ _ _ _ _ _ _ _ Ra Rb) as Reach.
  destruct (create_ok h).
  - pose proof (reaches_seq _ (fun _ => (step4_upgrade h ;; from_install h)%py) _ _ _ _ R3) as R'.
    pose proof (reaches_trans _ _ _ _ _ _ _ _ Reach R' _ _ _ (runs_here _ w1)) as R.
    unfold runs in R. rewrite R. unfold trace_of at 1. simpl.
    exists (spawns (trace_of ((step4_upgrade h;; from_install h)%py w1))).
    rewrite !spawns_app, Hsa, Hsb, Hs3, <- app_assoc. reflexivity.
  - assert (R : runs (main h) w ((ta ++ tb) ++ t3) w1 (Raise (SystemExit 1))).
    { apply Reach. rewrite from_creation_shape. apply runs_halt. exact R3. }
    unfold runs in R. rewrite R. unfold trace_of. simpl.
    exists []. rewrite !spawns_app, Hsa, Hsb, Hs3. reflexivity.
Qed.

Lemma forallb_split_false {A} (f : A -> bool) pre x post :
  f x = false -> forallb f (pre ++ x :: post) = false.
Proof.
  intros Hx. rewrite forallb_app. simpl. rewrite Hx. apply andb_false_r.
Qed.



End Outcomes.

(** * The claims *)







(** C7: when the removal of the existing environment directory raises an
    [OSError], the run prints the removal error, exits with status 1 at
    once, and no child (cache purge, creation, upgrade, install) was ever
    started. *)
Theorem teardown_oserror_halts (h : host) w e :
  venv_dir h ∈ w ->
  rmtree_error h (venv_dir h) = Some e ->
  is_OSError e = true ->
  exists t,
    main h w = (t, w, Raise (SystemExit 1)) /\
    exit_code (main h w).2 <> 0 /\
    last t = Some (Print ("Error removing old virtual environment: " +:+ str_exn e)) /\
    spawns t = [].
Proof.
  intros Hin Hrm Hos.
  destruct (main_teardown_oserror h w e Hin Hrm Hos) as (t & R & Hlast & Hs).
  exists t. split; [exact R|]. unfold runs in R. rewrite R. simpl.
  split; [discriminate|]. split; assumption.
Qed.

Lemma teardown_oserror_halts_witness :
  exists t,
    main (Sample.linux_with None (fun _ => Exited 0 EmptyString EmptyString)
            (Some (OSError "[Errno 13] Permission denied")))
      {[ "/opt/qisclick/qisclick_env" ]}
    = (t, {[ "/opt/qisclick/qisclick_env" ]}, Raise (SystemExit 1)) /\
    exit_code (main (Sample.linux_with None (fun _ => Exited 0 EmptyString EmptyString)
                       (Some (OSError "[Errno 13] Permission denied")))
                 {[ "/opt/qisclick/qisclick_env" ]}).2 <> 0 /\
    last t = Some (Print ("Error removing old virtual environment: "
                          +:+ "[Errno 13] Permission denied")) /\
    spawns t = [].
Proof.
  apply (teardown_oserror_halts
           (Sample.linux_with None (fun _ => Exited 0 EmptyString EmptyString)
              (Some (OSError "[Errno 13] Permission denied")))
           {[ "/opt/qisclick/qisclick_env" ]}
           (OSError "[Errno 13] Permission denied")).
  - vm_compute. set_solver.
  - reflexivity.
  - reflexivity.
Defined.

(** C2: installation goes through the fixed list in order and stops at the
    first package that fails.  When the packages before [package] install
    and [package] does not (the earlier steps having gone through), the run
    ends with exit status 1; after the child of [package] nothing happens
    but lines, the last being the installation error for [package]; and the
    children the run started are the purge (if any), the creation, the
    upgrade and the installs of the packages up to and including [package],
    in list order: no later package, no verification, nothing that undoes
    the earlier installs. *)
Theorem install_stops_at_first_failure (h : host) w pre package post :
  packages_to_install = pre ++ package :: post ->
  teardown_ok h w = true -> create_ok h = true -> upgrade_ok h = true ->
  forallb (install_ok h) pre = true ->
  install_ok h package = false ->
  exists t w' before lines,
    main h w = (t, w', Raise (SystemExit 1)) /\
    exit_code (main h w).2 <> 0 /\
    t = before ++ Spawn (install_args h package) :: lines
        ++ [Print ("Error installing " +:+ package
                   +:+ ". Please check your internet connection. Exiting.")] /\
    forallb is_print lines = true /\
    spawns t = purge_spawns h ++ [create_args h; upgrade_args h]
               ++ map (install_args h) (pre ++ [package]) /\
    (forall later, In later post -> ~ In later (pre ++ [package]) ->
       ~ In (install_args h later) (spawns t)) /\
    ~ In (test_args h) (spawns t).
Proof.
  intros Hsplit Ht Hc Hu Hpre Hfail.
  destruct (main_install_stops h w pre package post Hsplit Ht Hc Hu Hpre Hfail)
    as (t & w1 & before & lines & R & Etr & Hl & Hsp).
  assert (Hinj : forall p q, install_args h p = install_args h q -> p = q).
  { intros p q [= E]. exact E. }
  assert (Hshape : forall a, In a (spawns t) ->
            (exists sp, a = purge_args sp) \/ a = create_args h \/ a = upgrade_args h
            \/ exists q, In q (pre ++ [package]) /\ a = install_args h q).
  { intros a. rewrite Hsp. rewrite 2!in_app_iff. unfold purge_spawns.
    intros [Hp|[Hcu|Hi]].
    - destruct (shutil_which h "pip") as [sp|]; [|destruct Hp].
      destruct Hp as [<-|[]]. left. eexists. reflexivity.
    - destruct Hcu as [<-|[<-|[]]]; auto.
    - apply in_map_iff in Hi as (q & <- & Hq). right. right. right.
      exists q. split; [exact Hq|reflexivity]. }
  exists t, w1, before, lines.
  split; [exact R|]. unfold runs in R. rewrite R. simpl.
  split; [discriminate|]. split; [exact Etr|].
  split; [exact Hl|]. split; [exact Hsp|]. split.
  - intros later _ Hnot Hin.
    destruct (Hshape _ Hin) as [(sp & E)|[E|[E|(q & Hq & E)]]]; try discriminate E.
    apply Hinj in E. subst q. exact (Hnot Hq).
  - intros Hin.
    destruct (Hshape _ Hin) as [(sp & E)|[E|[E|(q & Hq & E)]]]; discriminate E.
Qed.

Lemma install_stops_at_first_failure_witness :
  exists t w' before lines,
    main (Sample.linux_with None (Sample.failing_install "qiskit-aer") None) ∅
    = (t, w', Raise (SystemExit 1)) /\
    exit_code (main (Sample.linux_with None (Sample.failing_install "qiskit-aer") None) ∅).2
    <> 0 /\
    t = before
        ++ Spawn (install_args (Sample.linux_with None (Sample.failing_install "qiskit-aer") None)
                    "qiskit-aer")
        :: lines
        ++ [Print ("Error installing " +:+ "qiskit-aer"
                   +:+ ". Please check your internet connection. Exiting.")] /\
    forallb is_print lines = true /\
    spawns t
    = purge_spawns (Sample.linux_with None (Sample.failing_install "qiskit-aer") None)
      ++ [create_args (Sample.linux_with None (Sample.failing_install "qiskit-aer") None);
          upgrade_args (Sample.linux_with None (Sample.failing_install "qiskit-aer") None)]
      ++ map (install_args (Sample.linux_with None (Sample.failing_install "qiskit-aer") None))
           (["qiskit"] ++ ["qiskit-aer"]) /\
    (forall later, In later ["qiskit-ibm-runtime"; "qiskit-terra"] ->
       ~ In later (["qiskit"] ++ ["qiskit-aer"]) ->
       ~ In (install_args (Sample.linux_with None (Sample.failing_install "qiskit-aer") None) later)
           (spawns t)) /\
    ~ In (test_args (Sample.linux_with None (Sample.failing_install "qiskit-aer") None))
        (spawns t).
Proof.
  apply (install_stops_at_first_failure
           (Sample.linux_with None (Sample.failing_install "qiskit-aer") None) ∅
           ["qiskit"] "qiskit-aer" ["qiskit-ibm-runtime"; "qiskit-terra"]);
    reflexivity.
Defined.

(** C3: on a host where pip is found and the purge child exits with 1, the
    step warns about nothing.  [run_command] is called with [check=False],
    so it returns [True] for a child that failed, the branch that warns
    that the cache could not be purged is not taken, and the line printed
    reports the purge as done. *)
Theorem purge_nonzero_exit_not_warned :
  step2_purge (Sample.linux (Some "/usr/bin/pip") 1) ∅
  = ([Print "Attempting to clear pip cache for Qiskit residues...";
      Spawn (purge_args "/usr/bin/pip");
      Print "Pip cache purged successfully (or no cache to purge)."],
     ∅, Normal tt)
  /\ existsb is_warning (step2_purge (Sample.linux (Some "/usr/bin/pip") 1) ∅).1.1 = false.
Proof.
  pose proof (step2_exited (Sample.linux (Some "/usr/bin/pip") 1) ∅
                "/usr/bin/pip" 1 "done" EmptyString eq_refl eq_refl) as R.
  unfold runs in R. rewrite R. split; reflexivity.
Qed.

(** The words of the spec on the purge do not hold on that host. *)
Lemma purge_failure_not_warned :
  ~ purge_claim (Sample.linux (Some "/usr/bin/pip") 1) ∅.
Proof.
  intros (t & E & _ & H).
  specialize (H "/usr/bin/pip" 1 "done" EmptyString eq_refl eq_refl).
  pose proof (step2_exited (Sample.linux (Some "/usr/bin/pip") 1) ∅
                "/usr/bin/pip" 1 "done" EmptyString eq_refl eq_refl) as R.
  unfold runs in R. rewrite R in E. injection E as <-.
  assert (Hrc : 1 <> 0) by lia. specialize (H Hrc). discriminate H.
Qed.

(** What the purge step does on every host.  The step always returns;
    without pip on the search path it prints the warning and starts no
    child; with pip it starts the purge once; when that child exits the
    line printed reports the purge as done, and the purge warning is printed
    when the child cannot be started.  After a teardown that went through
    the run goes on to start the creation. *)
Lemma purge_never_aborts (h : host) w :
  (exists t,
     step2_purge h w = (t, w, Normal tt) /\
     (shutil_which h "pip" = None ->
        t = [Print "Attempting to clear pip cache for Qiskit residues...";
             Print "Warning: 'pip' command not found in system PATH. Cannot purge cache."]) /\
     (forall system_pip,
        shutil_which h "pip" = Some system_pip ->
        spawns t = [purge_args system_pip] /\
        (forall rc out err,
           os_spawn h (purge_args system_pip) = Exited rc out err ->
           t = [Print "Attempting to clear pip cache for Qiskit residues...";
                Spawn (purge_args system_pip);
                Print "Pip cache purged successfully (or no cache to purge)."]) /\
        (forall e,
           os_spawn h (purge_args system_pip) = LaunchError e ->
           last t = Some (Print "Warning: Could not purge pip cache. This might be normal if no cache exists.")))) /\
  (teardown_ok h w = true ->
   exists rest, spawns (main h w).1.1 = purge_spawns h ++ create_args h :: rest).
Proof.
  split; [|apply main_spawns_creation].
  destruct (step2_runs h w) as (t & R & Hs).
  exists t. split; [exact R|]. split.
  - intros E. pose proof (step2_no_pip h w E) as R'.
    destruct (runs_det _ _ _ _ _ _ _ _ R R') as (-> & _). reflexivity.
  - intros system_pip E. split; [|split].
    + rewrite Hs. unfold purge_spawns. rewrite E. reflexivity.
    + intros rc out err Es. pose proof (step2_exited h w _ _ _ _ E Es) as R'.
      destruct (runs_det _ _ _ _ _ _ _ _ R R') as (-> & _). reflexivity.
    + intros e Es. destruct (step2_launch_error h w _ _ E Es) as (lines & R' & _).
      destruct (runs_det _ _ _ _ _ _ _ _ R R') as (-> & _).
      do 2 apply last_cons_some. apply last_snoc.
Qed.

(** C8: one test of the platform fixes both paths: [Scripts/pip.exe] and
    [Scripts/python.exe] under the environment directory on Windows,
    [bin/pip] and [bin/python] elsewhere; the upgrade is run through that
    pip, and when it fails (teardown and creation having gone through) the
    run ends with exit status 1 after the upgrade error. *)
Theorem venv_paths_by_platform (h : host) w :
  (platform_system h = "Windows" ->
     pip_path h = os_path_join h (venv_dir h) ["Scripts"; "pip.exe"] /\
     python_path h = os_path_join h (venv_dir h) ["Scripts"; "python.exe"]) /\
  (platform_system h <> "Windows" ->
     pip_path h = os_path_join h (venv_dir h) ["bin"; "pip"] /\
     python_path h = os_path_join h (venv_dir h) ["bin"; "python"]) /\
  ra_args (upgrade_args h) = CmdList [pip_path h; "install"; "--upgrade"; "pip"] /\
  (teardown_ok h w = true -> create_ok h = true -> upgrade_ok h = false ->
   exists t w',
     main h w = (t, w', Raise (SystemExit 1)) /\
     exit_code (main h w).2 <> 0 /\
     last t = Some (Print "Failed to upgrade pip. Exiting.") /\
     spawns t = purge_spawns h ++ [create_args h; upgrade_args h]).
Proof.
  split; [|split; [|split]].
  - intros E. unfold pip_path, python_path, is_windows. rewrite E. split; reflexivity.
  - intros E%String.eqb_neq. unfold pip_path, python_path, is_windows. rewrite E.
    split; reflexivity.
  - reflexivity.
  - intros Ht Hc Hu.
    destruct (main_upgrade_fails h w Ht Hc Hu) as (t & w' & R & Hlast & Hs).
    exists t, w'. split; [exact R|]. unfold runs in R. rewrite R. simpl.
    split; [discriminate|]. split; assumption.
Qed.

Lemma venv_paths_by_platform_witness :
  pip_path (Sample.linux_with None Sample.failing_upgrade None)
  = "/opt/qisclick/qisclick_env/bin/pip" /\
  exists t w',
    main (Sample.linux_with None Sample.failing_upgrade None) ∅
    = (t, w', Raise (SystemExit 1)) /\
    last t = Some (Print "Failed to upgrade pip. Exiting.").
Proof.
  destruct (venv_paths_by_platform (Sample.linux_with None Sample.failing_upgrade None) ∅)
    as (_ & Hposix & _ & Hfail).
  split.
  - assert (Hne : platform_system (Sample.linux_with None Sample.failing_upgrade None)
                  <> "Windows") by discriminate.
    rewrite (proj1 (Hposix Hne)). reflexivity.
  - destruct (Hfail eq_refl eq_refl eq_refl) as (t & w' & E & _ & Hlast & _).
    exists t, w'. split; assumption.
Defined.

(** C9: once the interactive interpreter has been started, its exit code
    does not matter: the run goes on, prints the guidance for the platform
    as its last line and ends with exit status 0.  Only an exception from
    the invocation itself is fatal at this step. *)
Theorem session_exit_status_ignored (h : host) w :
  provisioned h w = true ->
  (forall rc out err,
     os_spawn h (interactive_args h) = Exited rc out err ->
     exists t0 w',
       main h w
       = (t0 ++ [Spawn (interactive_args h);
                 Print (PyStr.nl +:+ "Exited 'qisclick' interactive Python interpreter.");
                 Print "You can activate it again anytime by running:";
                 Print (guidance_line h)],
          w', Normal tt) /\
       exit_code (main h w).2 = 0) /\
  (forall e,
     os_spawn h (interactive_args h) = LaunchError e ->
     exists t w',
       main h w = (t, w', Raise (SystemExit 1)) /\
       exit_code (main h w).2 <> 0 /\
       last t = Some (Print ("Error launching interactive Python interpreter: "
                             +:+ str_exn e))) /\
  (platform_system h = "Windows" ->
     guidance_line h = os_path_join h (venv_dir h) ["Scripts"; "activate.bat"]) /\
  (platform_system h <> "Windows" ->
     guidance_line h = "source " +:+ os_path_join h (venv_dir h) ["bin"; "activate"]).
Proof.
  intros Hp. split; [|split; [|split]].
  - intros rc out err E.
    destruct (main_completes h w rc out err Hp E) as (t0 & w' & R & _).
    exists t0, w'. split; [exact R|]. unfold runs in R. rewrite R. reflexivity.
  - intros e E.
    destruct (main_launch_fails h w e Hp E) as (t & w' & R & Hlast & _).
    exists t, w'. split; [exact R|]. unfold runs in R. rewrite R. simpl.
    split; [discriminate|exact Hlast].
  - intros E. unfold guidance_line, is_windows. rewrite E. reflexivity.
  - intros E%String.eqb_neq. unfold guidance_line, is_windows. rewrite E. reflexivity.
Qed.

Lemma session_exit_status_ignored_witness :
  exists t0 w',
    main (Sample.linux_with None (Sample.session_exits 3) None) ∅
    = (t0 ++ [Spawn (interactive_args (Sample.linux_with None (Sample.session_exits 3) None));
              Print (PyStr.nl +:+ "Exited 'qisclick' interactive Python interpreter.");
              Print "You can activate it again anytime by running:";
              Print "source /opt/qisclick/qisclick_env/bin/activate"],
       w', Normal tt) /\
    exit_code (main (Sample.linux_with None (Sample.session_exits 3) None) ∅).2 = 0.
Proof.
  assert (Hp : provisioned (Sample.linux_with None (Sample.session_exits 3) None) ∅ = true)
    by reflexivity.
  exact (proj1 (session_exit_status_ignored
                  (Sample.linux_with None (Sample.session_exits 3) None) ∅ Hp)
           3 EmptyString EmptyString eq_refl).
Defined.

(** C10: the fixed list is the four names, in this order, and none carries
    a version specifier.  In a run that gets to the loop, the children after
    the upgrade are the installs of an initial part of that list, in list
    order, each of them [<pip> install <name>] with the bare name, where
    [<pip>] is [Scripts/pip.exe] (on Windows) or [bin/pip] (elsewhere) under
    the very directory the creation child was given; when every package
    installs, all four are installed. *)
Theorem packages_installed_unpinned (h : host) w :
  let env := os_path_join h (script_dir h) ["qisclick_env"] in
  let env_pip :=
    if String.eqb (platform_system h) "Windows"
    then os_path_join h env ["Scripts"; "pip.exe"]
    else os_path_join h env ["bin"; "pip"] in
  let create :=
    {| ra_args := CmdList [sys_executable h; "-m"; "venv"; env];
       ra_cwd := None; ra_shell := false; ra_check := true; ra_stdin := Inherit;
       ra_stdout := PIPE; ra_stderr := PIPE; ra_text := true |} in
  let install (name : string) :=
    {| ra_args := CmdList [env_pip; "install"; name];
       ra_cwd := None; ra_shell := false; ra_check := true; ra_stdin := Inherit;
       ra_stdout := PIPE; ra_stderr := PIPE; ra_text := true |} in
  packages_to_install = ["qiskit"; "qiskit-aer"; "qiskit-ibm-runtime"; "qiskit-terra"] /\
  forallb (fun name => negb (has_version_specifier name)) packages_to_install = true /\
  (teardown_ok h w = true -> create_ok h = true -> upgrade_ok h = true ->
   exists attempted later rest,
     ["qiskit"; "qiskit-aer"; "qiskit-ibm-runtime"; "qiskit-terra"] = attempted ++ later /\
     spawns (main h w).1.1
     = purge_spawns h ++ [create; upgrade_args h] ++ map install attempted ++ rest /\
     (later <> [] -> rest = []) /\
     (forallb (install_ok h) packages_to_install = true -> later = [])).
Proof.
  intros env env_pip create install.
  split; [reflexivity|]. split; [reflexivity|].
  intros Ht Hc Hu.
  change create with (create_args h).
  destruct (first_failure (install_ok h) packages_to_install)
    as [Hall|(pre & package & post & Hsplit & Hpre & Hfail)].
  - destruct (main_reaches_install h w Ht Hc Hu) as (t0 & w1 & Hs0 & Reach).
    destruct (install_reaches_verify h w1 Hall) as (tb & Hsb & Rb).
    pose proof (reaches_prepend _ _ _ _ _ (reaches_trans _ _ _ _ _ _ _ _ Reach Rb)) as E.
    exists packages_to_install, [], (spawns (trace_of (from_verify h w1))).
    split; [reflexivity|]. split; [|split; [intros H; destruct H; reflexivity|reflexivity]].
    rewrite E. unfold prepend. cbn [fst].
    rewrite !spawns_app, Hs0, Hsb, <- !app_assoc. reflexivity.
  - destruct (main_install_stops h w pre package post Hsplit Ht Hc Hu Hpre Hfail)
      as (t & w' & before & lines & R & _ & _ & Hs).
    exists (pre ++ [package]), post, [].
    split; [|split; [|split]].
    + change (packages_to_install = (pre ++ [package]) ++ post).
      rewrite Hsplit, <- app_assoc. reflexivity.
    + unfold runs in R. rewrite R. cbn [fst]. rewrite Hs, app_nil_r. reflexivity.
    + reflexivity.
    + intros Hall. rewrite Hsplit in Hall.
      rewrite (forallb_split_false _ _ _ _ Hfail) in Hall. discriminate Hall.
Qed.

Lemma packages_installed_unpinned_witness :
  exists rest,
    spawns (main (Sample.linux None 0) ∅).1.1
    = [create_args (Sample.linux None 0); upgrade_args (Sample.linux None 0)]
      ++ map (fun name : string =>
                {| ra_args := CmdList ["/opt/qisclick/qisclick_env/bin/pip"; "install"; name];
                   ra_cwd := None; ra_shell := false; ra_check := true; ra_stdin := Inherit;
                   ra_stdout := PIPE; ra_stderr := PIPE; ra_text := true |})
           ["qiskit"; "qiskit-aer"; "qiskit-ibm-runtime"; "qiskit-terra"]
      ++ rest.
Proof.
  assert (Ht : teardown_ok (Sample.linux None 0) ∅ = true) by reflexivity.
  destruct (proj2 (proj2 (packages_installed_unpinned (Sample.linux None 0) ∅))
              Ht eq_refl eq_refl)
    as (attempted & later & rest & Hsplit & Hs & _ & Hall).
  rewrite (Hall eq_refl), app_nil_r in Hsplit. subst attempted.
  exists rest. exact Hs.
Defined.




(** C5: teardown comes before the creation of the environment.  When the
    directory exists and its removal goes through, [main] gets to the
    creation step having removed the tree and started no creation yet, and
    on the file system that step starts from neither the directory nor
    anything below it exists; when the removal raises, no creation is ever
    started.  When the directory does not exist, nothing is removed, and
    the steps after teardown leave the same trace and end the same way as
    after a removal that went through. *)
Theorem teardown_precedes_creation (h : host) w :
  (venv_dir h ∈ w ->
     (rmtree_error h (venv_dir h) = None ->
      exists t0 w1,
        main h w = prepend t0 (from_creation h w1) /\
        In (Rmtree (venv_dir h)) t0 /\
        ~ In (create_args h) (spawns t0) /\
        (venv_dir h ∉ w1) /\
        (forall q, under h (venv_dir h) q = true -> q ∉ w1)) /\
     (forall e, rmtree_error h (venv_dir h) = Some e ->
        ~ In (create_args h) (spawns (main h w).1.1))) /\
  (venv_dir h ∉ w ->
     exists t0,
       main h w = prepend t0 (after_teardown h w) /\
       ~ In (Rmtree (venv_dir h)) t0 /\
       forall w',
         venv_dir h ∈ w' -> rmtree_error h (venv_dir h) = None ->
         exists t0' w1',
           main h w' = prepend t0' (after_teardown h w1') /\
           In (Rmtree (venv_dir h)) t0' /\
           (after_teardown h w1').1.1 = (after_teardown h w).1.1 /\
           (after_teardown h w1').2 = (after_teardown h w).2).
Proof.
  assert (Hremoved : forall w0,
            venv_dir h ∈ w0 -> rmtree_error h (venv_dir h) = None ->
            exists tb,
              forallb is_print tb = true /\
              reaches (main h) w0
                (tb ++ [Print ("Removing existing virtual environment at "
                               +:+ venv_dir h +:+ "...");
                        Rmtree (venv_dir h);
                        Print "Old virtual environment removed successfully."])
                (filter (fun q => under h (venv_dir h) q = false) w0)
                (after_teardown h)).
  { intros w0 Hin Hrm.
    destruct (branding_runs w0) as (tb & Rb & Hb).
    exists tb. split; [exact Hb|].
    rewrite main_shape.
    eapply reaches_trans; [apply (reaches_seq _ _ _ _ _ _ Rb)|].
    exact (reaches_seq _ (fun _ => after_teardown h) _ _ _ _ (step1_removed h w0 Hin Hrm)). }
  assert (Hgone : forall (w0 : gset string) q,
            under h (venv_dir h) q = true ->
            q ∉ filter (fun q => under h (venv_dir h) q = false) w0).
  { intros w0 q Hq [Hf _]%elem_of_filter. congruence. }
  split.
  - intros Hin. split.
    + intros Hrm.
      destruct (Hremoved w Hin Hrm) as (tb & Hb & Ra).
      destruct (after_teardown_reaches_creation h
                  (filter (fun q => under h (venv_dir h) q = false) w)) as (t2 & Hs2 & R2).
      eexists _, _. split; [apply reaches_prepend, (reaches_trans _ _ _ _ _ _ _ _ Ra R2)|].
      split; [|split; [|split]].
      * rewrite !in_app_iff. left. right. simpl. auto.
      * rewrite !spawns_app, (spawns_prints _ Hb), Hs2. simpl.
        unfold purge_spawns. destruct (shutil_which h "pip"); simpl.
        -- intros [E|[]]. discriminate E.
        -- intros [].
      * apply Hgone. unfold under. rewrite String.eqb_refl. reflexivity.
      * apply Hgone.
    + intros e Hrm. destruct (is_OSError e) eqn:Hos.
      * destruct (main_teardown_oserror h w e Hin Hrm Hos) as (t & R & _ & Hs).
        unfold runs in R. rewrite R. simpl. rewrite Hs. intros [].
      * destruct (main_teardown_uncaught h w e Hin Hrm Hos) as (t & R & Hs).
        unfold runs in R. rewrite R. simpl. rewrite Hs. intros [].
  - intros Hnot.
    destruct (branding_runs w) as (tb & Rb & Hb).
    pose proof (step1_absent h w Hnot) as R1.
    eexists. split; [|split].
    + apply reaches_prepend. rewrite main_shape.
      eapply reaches_trans; [apply (reaches_seq _ _ _ _ _ _ Rb)|].
      exact (reaches_seq _ (fun _ => after_teardown h) _ _ _ _ R1).
    + rewrite in_app_iff. intros [Hin|[E|[]]]; [|discriminate E].
      rewrite forallb_forall in Hb. apply Hb in Hin. discriminate Hin.
    + intros w' Hin' Hrm.
      destruct (Hremoved w' Hin' Hrm) as (tb' & Hb' & Ra).
      eexists _, _. split; [apply reaches_prepend, Ra|]. split.
      * rewrite in_app_iff. right. simpl. auto.
      * destruct (blind_after_teardown h) as (t & r & E). rewrite !E. split; reflexivity.
Qed.

Lemma teardown_precedes_creation_witness :
  exists t0 w1,
    main (Sample.linux None 0) {[ "/opt/qisclick/qisclick_env" ]}
    = prepend t0 (from_creation (Sample.linux None 0) w1) /\
    In (Rmtree "/opt/qisclick/qisclick_env") t0 /\
    "/opt/qisclick/qisclick_env" ∉ w1.
Proof.
  assert (Hin : venv_dir (Sample.linux None 0)
                ∈ ({[ "/opt/qisclick/qisclick_env" ]} : gset string))
    by (vm_compute; set_solver).
  destruct (proj1 (proj1 (teardown_precedes_creation (Sample.linux None 0)
                            {[ "/opt/qisclick/qisclick_env" ]}) Hin) eq_refl)
    as (t0 & w1 & E & Hrm & _ & Hgone & _).
  exists t0, w1. split; [exact E|]. split; [exact Hrm|exact Hgone].
Defined.

(** * Further properties of the runner and of the sequence *)

(** ** What [run_command] prints *)

Section RunnerOutput.

Variable h : host.

Lemma run_command_success_inherit command cwd shell check w rc out err :
  os_spawn h (run_command_args command cwd shell check false) = Exited rc out err ->
  check = false \/ rc = 0 ->
  run_command h command cwd shell check false w
  = ([Spawn (run_command_args command cwd shell check false)], w, Normal true).
Proof.
  intros E Hok. unfold run_command, try_except, bind, subprocess_run. rewrite E.
  cbn -[Z.eqb].
  destruct Hok as [->| ->]; [reflexivity|]. rewrite andb_false_r. reflexivity.
Qed.

Lemma run_command_success_piped command cwd shell check w rc out err so se :
  os_spawn h (run_command_args command cwd shell check true) = Exited rc out err ->
  check = false \/ rc = 0 ->
  text_decode h out = Decoded so -> text_decode h err = Decoded se ->
  run_command h command cwd shell check true w
  = (Spawn (run_command_args command cwd shell check true) :: echo h so ++ echo h se,
     w, Normal true).
Proof.
  intros E Hok Eo Ee. unfold run_command, try_except, bind, subprocess_run. rewrite E.
  cbn -[Z.eqb]. rewrite Eo, Ee.
  destruct Hok as [->| ->]; [|rewrite andb_false_r]; destruct so, se; reflexivity.
Qed.



End RunnerOutput.

(** ** The install loop, round by round *)

Lemma install_ok_exited (h : host) package :
  install_ok h package = true ->
  exists out err so se,
    os_spawn h (install_args h package) = Exited 0 out err
    /\ text_decode h out = Decoded so /\ text_decode h err = Decoded se.
Proof.
  unfold install_ok, succeeds, readable, captured.
  destruct (os_spawn h (install_args h package)) as [rc out err|e]; [|discriminate].
  cbn -[Z.eqb].
  destruct (text_decode h out) as [so|] eqn:Eo; [|discriminate].
  destruct (text_decode h err) as [se|] eqn:Ee; [|discriminate].
  cbn -[Z.eqb]. intros ->%Z.eqb_eq.
  exists out, err, so, se. repeat split; assumption.
Qed.

Lemma install_packages_rounds (h : host) packages w :
  forallb (install_ok h) packages = true ->
  install_packages h packages w = (flat_map (install_round h) packages, w, Normal tt).
Proof.
  induction packages as [|package rest IH]; intros Hok; [reflexivity|].
  cbn [forallb] in Hok. apply andb_prop in Hok as [Hp Hrest].
  destruct (install_ok_exited h package Hp) as (out & err & so & se & E & Eo & Ee).
  pose proof (run_command_success_piped h (install_command h package) None false true w
                0 out err so se E (or_intror eq_refl) Eo Ee) as R.
  cbn [install_packages flat_map]. unfold bind at 1. cbn [print emit].
  unfold bind at 1. rewrite R. cbn [negb when].
  unfold bind at 1. cbn [ret]. unfold bind at 1. cbn [print emit].
  rewrite (IH Hrest).
  unfold install_round, child_echo. fold (install_args h package). rewrite E, Eo, Ee.
  cbn [app]. rewrite <- !app_assoc. reflexivity.
Qed.

(** ** No removal once a child has been started *)

Lemma no_removal_app t1 t2 :
  no_removal (t1 ++ t2) = no_removal t1 && no_removal t2.
Proof. apply forallb_app. Qed.

Lemma no_removal_prints t : forallb is_print t = true -> no_removal t = true.
Proof.
  unfold no_removal. induction t as [|e t IH]; simpl; [reflexivity|].
  destruct e; simpl; try discriminate; auto.
Qed.

Lemma harmless_ret {A} (a : A) : harmless (ret a).
Proof. intros w. reflexivity. Qed.

Lemma harmless_raise {A} (r : raised) : harmless (@raise A r).
Proof. intros w. reflexivity. Qed.

Lemma harmless_print line : harmless (print line).
Proof. intros w. reflexivity. Qed.

Lemma harmless_bind {A B} (m : M A) (k : A -> M B) :
  harmless m -> (forall a, harmless (k a)) -> harmless (bind m k).
Proof.
  intros Hm Hk w. specialize (Hm w). unfold bind.
  destruct (m w) as [[t w'] [a|r]]; [|exact Hm].
  specialize (Hk a w'). destruct (k a w') as [[t' w''] r'].
  unfold trace_of in *. simpl in *. rewrite no_removal_app, Hm, Hk. reflexivity.
Qed.

Lemma harmless_when c (body : M unit) : harmless body -> harmless (when c body).
Proof. destruct c; simpl; [auto|intros _; apply harmless_ret]. Qed.

Lemma harmless_try_except {A} (body : M A) handlers :
  harmless body -> (forall e hd, handlers e = Some hd -> harmless hd) ->
  harmless (try_except body handlers).
Proof.
  intros Hb Hh w. specialize (Hb w). unfold try_except.
  destruct (body w) as [[t w'] [a|[code|e]]]; try exact Hb.
  destruct (handlers e) as [hd|] eqn:Eh; [|exact Hb].
  specialize (Hh e hd Eh w'). destruct (hd w') as [[t' w''] r'].
  unfold trace_of in *. simpl in *. rewrite no_removal_app, Hb, Hh. reflexivity.
Qed.

Lemma harmless_lift {A} (x : result A) : harmless (lift x).
Proof. intros w. reflexivity. Qed.

Lemma harmless_subprocess_run h a : harmless (subprocess_run h a).
Proof.
  intros w. unfold subprocess_run.
  destruct (os_spawn h a) as [rc out err|e];
    [destruct (captured h _ _ out);
     [destruct (captured h _ _ err); [destruct (_ && _)|]|]|];
    reflexivity.
Qed.

Lemma harmless_run_command h command cwd shell check capture_output :
  harmless (run_command h command cwd shell check capture_output).
Proof.
  unfold run_command. apply harmless_try_except.
  - apply harmless_bind; [apply harmless_subprocess_run|intros r].
    apply harmless_bind; [|intros _; apply harmless_ret].
    apply harmless_when, harmless_bind; [|intros _]; apply harmless_when, harmless_print.
  - intros e hd He. destruct e; injection He as <-;
      repeat first
        [ apply harmless_bind; [|intros ?]
        | apply harmless_when
        | apply harmless_print
        | apply harmless_ret
        | apply harmless_lift ].
Qed.

#[local] Hint Resolve harmless_ret harmless_raise harmless_print
  harmless_subprocess_run harmless_run_command : blind.

Ltac harmless_steps :=
  repeat first
    [ apply harmless_bind; [|intros ?]
    | apply harmless_when
    | apply harmless_try_except; [|intros ? ? [= <-]]
    | match goal with |- harmless (if ?c then _ else _) => destruct c end
    | match goal with |- harmless (match ?c with _ => _ end) => destruct c end
    | solve [unfold sys_exit; auto with blind] ].

Lemma harmless_install_packages h packages : harmless (install_packages h packages).
Proof.
  induction packages as [|package rest IH]; simpl; [apply harmless_ret|].
  harmless_steps.
Qed.

Lemma harmless_after_teardown h : harmless (after_teardown h).
Proof.
  unfold after_teardown, step2_purge, step3_create, step4_upgrade, step5_install,
    step6_verify, step7_interactive, step8_guidance.
  harmless_steps; apply harmless_install_packages.
Qed.

(** ** The whole run: its split at teardown, its children, its file system *)

Section WholeRun.

Variable h : host.

(** Every run is a childless part, up to the end of teardown, followed (when
    teardown goes through) by the steps after teardown on the file system
    teardown left. *)
Lemma main_split w :
  exists t0 w1,
    spawns t0 = []
    /\ (w1 = w \/ w1 = filter (fun q => under h (venv_dir h) q = false) w)
    /\ (main h w = prepend t0 (after_teardown h w1)
        \/ exists r, main h w = (t0, w1, Raise r)).
Proof.
  destruct (branding_runs w) as (tb & Rb & Hb).
  destruct (bool_decide (venv_dir h ∈ w)) eqn:Hd.
  - apply bool_decide_eq_true_1 in Hd.
    destruct (rmtree_error h (venv_dir h)) as [e|] eqn:Hrm.
    + destruct (is_OSError e) eqn:Hos.
      * destruct (main_teardown_oserror h w e Hd Hrm Hos) as (t & R & _ & Hs).
        exists t, w. split; [exact Hs|]. split; [left; reflexivity|]. right. eauto.
      * destruct (main_teardown_uncaught h w e Hd Hrm Hos) as (t & R & Hs).
        exists t, w. split; [exact Hs|]. split; [left; reflexivity|]. right. eauto.
    + pose proof (step1_removed h w Hd Hrm) as R1.
      exists (tb ++ [Print ("Removing existing virtual environment at "
                            +:+ venv_dir h +:+ "...");
                     Rmtree (venv_dir h);
                     Print "Old virtual environment removed successfully."]),
        (filter (fun q => under h (venv_dir h) q = false) w).
      split; [|split; [right; reflexivity|left]].
      * rewrite spawns_app, (spawns_prints _ Hb). reflexivity.
      * apply reaches_prepend. rewrite main_shape.
        eapply reaches_trans; [apply (reaches_seq _ _ _ _ _ _ Rb)|].
        exact (reaches_seq _ (fun _ => after_teardown h) _ _ _ _ R1).
  - apply bool_decide_eq_false_1 in Hd.
    pose proof (step1_absent h w Hd) as R1.
    exists (tb ++ [Print ("No existing virtual environment found at "
                          +:+ venv_dir h +:+ ", skipping removal.")]), w.
    split; [|split; [left; reflexivity|left]].
    + rewrite spawns_app, (spawns_prints _ Hb). reflexivity.
    + apply reaches_prepend. rewrite main_shape.
      eapply reaches_trans; [apply (reaches_seq _ _ _ _ _ _ Rb)|].
      exact (reaches_seq _ (fun _ => after_teardown h) _ _ _ _ R1).
Qed.

Ltac read_run R :=
  unfold runs in R; rewrite R; unfold trace_of, result_of; cbn [fst snd].

(** The children of a run whose teardown goes through are an initial part
    of the plan, the whole plan when [main] returns. *)
Lemma main_spawns_later w :
  teardown_ok h w = true ->
  exists rest,
    plan h = spawns (trace_of (main h w)) ++ rest
    /\ (result_of (main h w) = Normal tt -> rest = []).
Proof.
  intros Ht. unfold plan.
  destruct (create_ok h) eqn:Hc.
  2:{ destruct (main_create_fails h w Ht Hc) as (t & w' & R & _ & Hs).
      read_run R. rewrite Hs.
      exists ([upgrade_args h] ++ map (install_args h) packages_to_install
              ++ [test_args h; interactive_args h]).
      split; [rewrite <- app_assoc; reflexivity|discriminate]. }
  destruct (upgrade_ok h) eqn:Hu.
  2:{ destruct (main_upgrade_fails h w Ht Hc Hu) as (t & w' & R & _ & Hs).
      read_run R. rewrite Hs.
      exists (map (install_args h) packages_to_install
              ++ [test_args h; interactive_args h]).
      split; [rewrite <- app_assoc; reflexivity|discriminate]. }
  destruct (first_failure (install_ok h) packages_to_install)
    as [Hi|(pre & package & post & Hsplit & Hpre & Hfail)].
  2:{ destruct (main_install_stops h w pre package post Hsplit Ht Hc Hu Hpre Hfail)
        as (t & w' & before & lines & R & _ & _ & Hs).
      read_run R. rewrite Hs, Hsplit.
      exists (map (install_args h) post ++ [test_args h; interactive_args h]).
      split; [|discriminate].
      rewrite !map_app. cbn [map]. rewrite <- !app_assoc. reflexivity. }
  destruct (verify_ok h) eqn:Hv.
  2:{ destruct (main_verify_fails h w Ht Hc Hu Hi Hv) as (t & w' & R & _ & Hs).
      read_run R. rewrite Hs.
      exists [interactive_args h].
      split; [rewrite <- !app_assoc; reflexivity|discriminate]. }
  assert (Hp : provisioned h w = true).
  { unfold provisioned. rewrite Ht, Hc, Hu, Hi, Hv. reflexivity. }
  destruct (os_spawn h (interactive_args h)) as [rc out err|e] eqn:Es.
  - destruct (main_completes h w rc out err Hp Es) as (t0 & w' & R & Hs).
    read_run R. rewrite spawns_app, Hs. cbn [spawns].
    exists []. split; [|reflexivity].
    rewrite <- !app_assoc, app_nil_r. reflexivity.
  - destruct (main_launch_fails h w e Hp Es) as (t & w' & R & _ & Hs).
    read_run R. rewrite Hs.
    exists []. split; [rewrite app_nil_r; reflexivity|reflexivity].
Qed.

(** The children of any run are an initial part of the plan. *)
Lemma main_spawns_prefix w :
  exists rest,
    plan h = spawns (trace_of (main h w)) ++ rest
    /\ (result_of (main h w) = Normal tt -> rest = []).
Proof.
  destruct (teardown_ok h w) eqn:Ht; [apply main_spawns_later, Ht|].
  unfold teardown_ok in Ht.
  destruct (bool_decide (venv_dir h ∈ w)) eqn:Hd; [|discriminate].
  apply bool_decide_eq_true_1 in Hd.
  destruct (rmtree_error h (venv_dir h)) as [e|] eqn:Hrm; [|discriminate].
  exists (plan h). destruct (is_OSError e) eqn:Hos.
  - destruct (main_teardown_oserror h w e Hd Hrm Hos) as (t & R & _ & Hs).
    read_run R. rewrite Hs. split; [reflexivity|discriminate].
  - destruct (main_teardown_uncaught h w e Hd Hrm Hos) as (t & R & Hs).
    read_run R. rewrite Hs. split; [reflexivity|discriminate].
Qed.

(** No two children of the plan have the same arguments. *)
Lemma plan_NoDup : List.NoDup (plan h).
Proof.
  unfold plan, purge_spawns, packages_to_install.
  destruct (shutil_which h "pip"); cbn [app map];
    repeat (constructor;
            [ cbn [In]; intros Hin;
              repeat (destruct Hin as [Hin|Hin]; [discriminate Hin|]); exact Hin
            | ]);
    constructor.
Qed.

Lemma plan_length : (length (plan h) <= 9)%nat.
Proof.
  unfold plan, purge_spawns, packages_to_install.
  destruct (shutil_which h "pip"); cbn; lia.
Qed.

End WholeRun.

(** * Further properties, stated *)


(** X2: when the child counts as a success (exit code 0, or [check] off),
    [run_command] returns [True] and prints exactly this: nothing when the
    output is not captured; otherwise, the captured streams being decoded,
    the text of standard output and then the text of standard error, each
    through [str.strip], a stream being left out exactly when its text is
    empty. *)
Theorem run_command_echoes (h : host) command cwd shell check w rc out err :
  check = false \/ rc = 0 ->
  (os_spawn h (run_command_args command cwd shell check false) = Exited rc out err ->
   run_command h command cwd shell check false w
   = ([Spawn (run_command_args command cwd shell check false)], w, Normal true)) /\
  (forall so se,
     os_spawn h (run_command_args command cwd shell check true) = Exited rc out err ->
     text_decode h out = Decoded so -> text_decode h err = Decoded se ->
     run_command h command cwd shell check true w
     = (Spawn (run_command_args command cwd shell check true)
        :: (match so with
            | EmptyString => []
            | _ => [Print (str_strip h so)]
            end)
        ++ (match se with
            | EmptyString => []
            | _ => [Print (str_strip h se)]
            end),
        w, Normal true)).
Proof.
  intros Hok. split.
  - intros E. apply (run_command_success_inherit h _ _ _ _ _ _ _ _ E Hok).
  - intros so se E Eo Ee.
    apply (run_command_success_piped h _ _ _ _ _ _ _ _ _ _ E Hok Eo Ee).
Qed.

Lemma run_command_echoes_witness :
  run_command (Sample.linux None 0) (CmdList ["pip"; "--version"]) None false true true ∅
  = ([Spawn (run_command_args (CmdList ["pip"; "--version"]) None false true true);
      Print "done"],
     ∅, Normal true).
Proof.
  apply (proj2 (run_command_echoes (Sample.linux None 0) (CmdList ["pip"; "--version"])
                  None false true ∅ 0 "done" EmptyString (or_intror eq_refl))
           "done" EmptyString); reflexivity.
Defined.



(** X4: the children of any run of [main] are an initial part of the plan
    (purge if pip is found, creation, upgrade, the installs in list order,
    verification, interactive interpreter): a step is never started before
    the steps ahead of it, and when [main] returns the whole plan was run. *)
Theorem children_follow_plan (h : host) w :
  exists rest,
    plan h = spawns (main h w).1.1 ++ rest
    /\ ((main h w).2 = Normal tt -> rest = []).
Proof. apply main_spawns_prefix. Qed.

(** X5: no run of [main] starts two children with the same arguments, and
    none starts more than nine children: nothing is retried. *)
Theorem no_child_twice (h : host) w :
  List.NoDup (spawns (main h w).1.1) /\ (length (spawns (main h w).1.1) <= 9)%nat.
Proof.
  destruct (main_spawns_prefix h w) as (rest & E & _).
  pose proof (plan_NoDup h) as Hn. pose proof (plan_length h) as Hl.
  unfold trace_of in E. rewrite E in Hn, Hl. split.
  - apply NoDup_app_remove_r in Hn. exact Hn.
  - rewrite length_app in Hl. lia.
Qed.

(** X6: by its own operations [main] changes the file system only by
    removing the environment directory and what lies below it: a path that
    exists after the run existed before it, and a path that is neither the
    directory nor below it still exists. *)
Theorem main_removes_only_environment (h : host) w :
  (forall q, q ∈ (main h w).1.2 -> q ∈ w) /\
  (forall q, under h (venv_dir h) q = false -> q ∈ w -> q ∈ (main h w).1.2).
Proof.
  destruct (main_split h w) as (t0 & w1 & _ & Hw1 & Hrun).
  assert (Hfs : (main h w).1.2 = w1).
  { destruct Hrun as [E|(r & E)]; rewrite E; [|reflexivity].
    destruct (blind_after_teardown h) as (t & r & Eb). rewrite Eb. reflexivity. }
  rewrite Hfs. destruct Hw1 as [-> | ->].
  - split; auto.
  - split.
    + intros q [_ Hq]%elem_of_filter. exact Hq.
    + intros q Hu Hq. apply elem_of_filter. split; assumption.
Qed.

(** X7: once a child has been started nothing is removed any more: the
    trace of any run is a part without children followed by a part without
    removals. *)
Theorem no_removal_once_children_start (h : host) w :
  exists t0 t1,
    (main h w).1.1 = t0 ++ t1 /\ spawns t0 = [] /\ no_removal t1 = true.
Proof.
  destruct (main_split h w) as (t0 & w1 & Hs & _ & Hrun).
  destruct Hrun as [E|(r & E)]; rewrite E.
  - exists t0, (trace_of (after_teardown h w1)). split; [reflexivity|].
    split; [exact Hs|apply harmless_after_teardown].
  - exists t0, []. split; [symmetry; apply app_nil_r|]. split; [exact Hs|reflexivity].
Qed.

(** X8: when the creation of the environment fails after a teardown that
    went through, the run ends with exit status 1 after the line on the
    creation, and its children were the purge (if pip is found) and the
    creation only: the pip of the environment is never run. *)
Theorem creation_failure_halts (h : host) w :
  teardown_ok h w = true -> create_ok h = false ->
  exists t w',
    main h w = (t, w', Raise (SystemExit 1)) /\
    last t = Some (Print "Failed to create virtual environment. Exiting.") /\
    spawns t = purge_spawns h ++ [create_args h].
Proof. apply main_create_fails. Qed.

Lemma creation_failure_halts_witness :
  exists t w',
    main (Sample.linux_with None Hosts.failing_creation None) ∅
    = (t, w', Raise (SystemExit 1)) /\
    last t = Some (Print "Failed to create virtual environment. Exiting.") /\
    spawns t = purge_spawns (Sample.linux_with None Hosts.failing_creation None)
               ++ [create_args (Sample.linux_with None Hosts.failing_creation None)].
Proof.
  apply (creation_failure_halts (Sample.linux_with None Hosts.failing_creation None) ∅);
    reflexivity.
Defined.

(** X9: when the verification program fails after every earlier step went
    through, the run ends with exit status 1 after the line on the test,
    and the interactive interpreter is never started. *)
Theorem verification_failure_halts (h : host) w :
  teardown_ok h w = true -> create_ok h = true -> upgrade_ok h = true ->
  forallb (install_ok h) packages_to_install = true ->
  verify_ok h = false ->
  exists t w',
    main h w = (t, w', Raise (SystemExit 1)) /\
    last t = Some (Print "Qiskit test failed. Please review the output above for errors.") /\
    spawns t = purge_spawns h ++ [create_args h; upgrade_args h]
               ++ map (install_args h) packages_to_install ++ [test_args h] /\
    ~ In (interactive_args h) (spawns t).
Proof.
  intros Ht Hc Hu Hi Hv.
  destruct (main_verify_fails h w Ht Hc Hu Hi Hv) as (t & w' & R & Hlast & Hs).
  exists t, w'. split; [exact R|]. split; [exact Hlast|]. split; [exact Hs|].
  rewrite Hs. unfold purge_spawns.
  rewrite !in_app_iff. intros [Hin|[Hin|[Hin|Hin]]].
  - destruct (shutil_which h "pip"); [destruct Hin as [E|[]]; discriminate E|destruct Hin].
  - destruct Hin as [E|[E|[]]]; discriminate E.
  - apply in_map_iff in Hin as (q & E & _). discriminate E.
  - destruct Hin as [E|[]]. discriminate E.
Qed.

Lemma verification_failure_halts_witness :
  exists t w',
    main (Sample.linux_with None Hosts.failing_verification None) ∅
    = (t, w', Raise (SystemExit 1)) /\
    last t = Some (Print "Qiskit test failed. Please review the output above for errors.").
Proof.
  assert (Ht : teardown_ok (Sample.linux_with None Hosts.failing_verification None) ∅ = true)
    by reflexivity.
  destruct (verification_failure_halts
              (Sample.linux_with None Hosts.failing_verification None) ∅
              Ht eq_refl eq_refl eq_refl eq_refl)
    as (t & w' & E & Hlast & _).
  exists t, w'. split; assumption.
Defined.

(** X10: the teardown catches [OSError] only.  When the removal raises
    anything else, the exception leaves [main]: the script prints nothing
    after the removal, starts no child, and the process ends with exit
    status 1. *)
Theorem teardown_other_exception_escapes (h : host) w e :
  venv_dir h ∈ w ->
  rmtree_error h (venv_dir h) = Some e ->
  is_OSError e = false ->
  exists t,
    main h w = (t, w, Raise (Exc e)) /\
    exit_code (main h w).2 = 1 /\
    last t = Some (Rmtree (venv_dir h)) /\
    spawns t = [].
Proof.
  intros Hin Hrm Hos.
  destruct (branding_runs w) as (tb & Rb & Hb).
  pose proof (step1_uncaught h w e Hin Hrm Hos) as R1.
  assert (R : runs (main h) w
                (tb ++ [Print ("Removing existing virtual environment at "
                               +:+ venv_dir h +:+ "...");
                        Rmtree (venv_dir h)])
                w (Raise (Exc e))).
  { rewrite main_shape. eapply runs_seq; [exact Rb|]. apply runs_halt. exact R1. }
  eexists. split; [exact R|]. unfold runs in R. rewrite R.
  split; [reflexivity|]. split.
  - apply last_suffix. reflexivity.
  - rewrite spawns_app, (spawns_prints _ Hb). reflexivity.
Qed.

Lemma teardown_other_exception_escapes_witness :
  exit_code (main (Hosts.failing_removal (OtherError "maximum recursion depth exceeded"))
               {[ "/opt/qisclick/qisclick_env" ]}).2 = 1.
Proof.
  assert (Hin : venv_dir (Hosts.failing_removal (OtherError "maximum recursion depth exceeded"))
                ∈ ({[ "/opt/qisclick/qisclick_env" ]} : gset string))
    by (vm_compute; set_solver).
  destruct (teardown_other_exception_escapes
              (Hosts.failing_removal (OtherError "maximum recursion depth exceeded"))
              {[ "/opt/qisclick/qisclick_env" ]}
              (OtherError "maximum recursion depth exceeded") Hin eq_refl eq_refl)
    as (t & _ & E & _).
  exact E.
Defined.

(** X11: when every package installs, the install step leaves its opening
    line, then one round per package of the fixed list, in list order (the
    line that announces the package, its child, the text the child wrote on
    each captured stream through [str.strip], empty texts left out, and the
    line that confirms it), then its closing line; it returns and leaves
    the file system alone. *)
Theorem install_loop_rounds (h : host) w :
  forallb (install_ok h) packages_to_install = true ->
  step5_install h w
  = (Print "Installing Qiskit and its components (latest compatible versions)..."
     :: flat_map (install_round h)
          ["qiskit"; "qiskit-aer"; "qiskit-ibm-runtime"; "qiskit-terra"]
     ++ [Print (PyStr.nl +:+ "All specified Qiskit components installed successfully!")],
     w, Normal tt).
Proof.
  intros Hok. pose proof (install_packages_rounds h packages_to_install w Hok) as R.
  unfold step5_install.
  apply (runs_seq _ _ _ _ _ _ _ _ _ (runs_print _ _)).
  apply (runs_seq _ (fun _ => print _) _ _ _ _ _ _ _ R). apply runs_print.
Qed.

Lemma install_loop_rounds_witness :
  step5_install (Sample.linux None 0) ∅
  = (Print "Installing Qiskit and its components (latest compatible versions)..."
     :: flat_map (install_round (Sample.linux None 0))
          ["qiskit"; "qiskit-aer"; "qiskit-ibm-runtime"; "qiskit-terra"]
     ++ [Print (PyStr.nl +:+ "All specified Qiskit components installed successfully!")],
     ∅, Normal tt).
Proof.
  apply (install_loop_rounds (Sample.linux None 0) ∅). reflexivity.
Defined.
